(** * Language-pack update pipeline of KA Lite (update_language_packs.py)

    A shallow embedding of
    [kalite/i18n/management/commands/update_language_packs.py]:
    the translation fetcher ([download_latest_translations],
    [build_translations], [extract_new_po]), the metadata merger
    ([generate_metadata], [get_crowdin_meta]), the version policy
    ([increment_crowdin_version]), the packer ([zip_language_packs]) and
    the command that runs them ([Command.handle], [update_srts],
    [update_language_packs], [raise_if_outdated_srt_schema]); and of the
    rewriting of the command line in [manage.py].

    Python values are the JSON fragment of the language (None, bool, int,
    str, list, dict with string keys); numbers are integers, as all the
    counts the pipeline handles are.  Python exceptions are an error
    result; the file system and the log are an explicit state that a raise
    leaves as it is at the raising statement. *)

From stdpp Require Import gmap strings list fin_maps.
From Stdlib Require Import ZArith Ascii String.

#[local] Set Warnings "-register-all,-clear-no-such-hyp".
#[local] Open Scope Z_scope.
#[local] Open Scope string_scope.
#[local] Open Scope list_scope.

(** ** Python values and exceptions *)

Inductive pyval :=
| PNone
| PBool (b : bool)
| PInt (z : Z)
| PStr (s : string)
| PList (l : list pyval)
| PDict (d : gmap string pyval).

Inductive exn :=
| AttributeError
| TypeError
| ValueError
| KeyError
| IOError
| OSError
| BadZipfile
| ConnectionError
| HTTPError (status : Z)
| ShutilError.

Inductive result (A : Type) :=
| Ok (a : A)
| Raise (e : exn).
Arguments Ok {A} a.
Arguments Raise {A} e.

#[global] Instance result_ret : MRet result := λ A a, Ok a.
#[global] Instance result_bind : MBind result := λ A B f c,
  match c with
  | Ok a => f a
  | Raise e => Raise e
  end.

Module Py.

(** Truth value of an object: None, False, 0 and the empty string, list
    and dict are false. *)
Definition truthy (v : pyval) : bool :=
  match v with
  | PNone => false
  | PBool b => b
  | PInt z => negb (Z.eqb z 0)
  | PStr s => negb (String.eqb s "")
  | PList l => match l with [] => false | _ => true end
  | PDict d => negb (bool_decide (size d = 0%nat))
  end.

(** [a == b].  bool is a subtype of int, so [True == 1]; values of
    unrelated types are unequal; dicts compare as mappings. *)
Fixpoint eq (a b : pyval) : bool :=
  match a, b with
  | PNone, PNone => true
  | PBool x, PBool y => Bool.eqb x y
  | PBool x, PInt y => Z.eqb (if x then 1 else 0) y
  | PInt x, PBool y => Z.eqb x (if y then 1 else 0)
  | PInt x, PInt y => Z.eqb x y
  | PStr x, PStr y => String.eqb x y
  | PList x, PList y =>
      (fix go (x y : list pyval) : bool :=
         match x, y with
         | [], [] => true
         | u :: x', v :: y' => eq u v && go x' y'
         | _, _ => false
         end) x y
  | PDict x, PDict y =>
      bool_decide (size x = size y) &&
      map_fold (λ k u acc,
                acc && match y !! k with
                       | Some v => eq u v
                       | None => false
                       end) true x
  | _, _ => false
  end.

(** [d.get(k)] on a dict: a missing key gives None. *)
Definition get_field (d : gmap string pyval) (k : string) : pyval :=
  default PNone (d !! k).

(** [v.get(k)]: only dicts have the attribute. *)
Definition get (v : pyval) (k : string) : result pyval :=
  match v with
  | PDict d => Ok (get_field d k)
  | _ => Raise AttributeError
  end.

(** [v[k]] with a string key. *)
Definition getitem (v : pyval) (k : string) : result pyval :=
  match v with
  | PDict d => match d !! k with
               | Some x => Ok x
               | None => Raise KeyError
               end
  | _ => Raise TypeError
  end.

(** [a or b]. *)
Definition or (a b : pyval) : pyval := if truthy a then a else b.

(** [a + 1]. *)
Definition add1 (a : pyval) : result pyval :=
  match a with
  | PInt z => Ok (PInt (z + 1))
  | PBool b => Ok (PInt ((if b then 1 else 0) + 1))
  | _ => Raise TypeError
  end.

Definition is_space (c : ascii) : bool :=
  let n := nat_of_ascii c in
  (Nat.eqb n 32 || (Nat.leb 9 n && Nat.leb n 13))%bool.

Definition digit (c : ascii) : option Z :=
  let n := nat_of_ascii c in
  if (Nat.leb 48 n && Nat.leb n 57)%bool then Some (Z.of_nat n - 48) else None.

Fixpoint lstrip (s : string) : string :=
  match s with
  | String c s' => if is_space c then lstrip s' else s
  | EmptyString => EmptyString
  end.

Fixpoint digits (acc : Z) (s : string) : option Z :=
  match s with
  | EmptyString => Some acc
  | String c s' =>
      match digit c with
      | Some d => digits (10 * acc + d) s'
      | None => if String.eqb (lstrip s) "" then Some acc else None
      end
  end.

Definition unsigned (s : string) : option Z :=
  match s with
  | String c _ => match digit c with
                  | Some _ => digits 0 s
                  | None => None
                  end
  | EmptyString => None
  end.

(** [int(s)] for a string in base 10: surrounding white space, an
    optional sign, then at least one digit. *)
Definition int_of_string (s : string) : option Z :=
  match lstrip s with
  | String "-" s' => Z.opp <$> unsigned s'
  | String "+" s' => unsigned s'
  | s' => unsigned s'
  end.

(** [int(v)]. *)
Definition int (v : pyval) : result Z :=
  match v with
  | PInt z => Ok z
  | PBool b => Ok (if b then 1 else 0)
  | PStr s => match int_of_string s with
              | Some z => Ok z
              | None => Raise ValueError
              end
  | _ => Raise TypeError
  end.

(** [needle in s] for strings. *)
Fixpoint contains (needle s : string) : bool :=
  (String.prefix needle s ||
   match s with
   | String _ s' => contains needle s'
   | EmptyString => false
   end)%bool.

(** [s.endswith(suffix)]. *)
Definition endswith (suffix s : string) : bool :=
  let n := String.length s in
  let k := String.length suffix in
  (Nat.leb k n && String.eqb (String.substring (n - k) k s) suffix)%bool.

(** The items [for x in v] visits: the elements of a list, the keys of a
    dict, the characters of a string. *)
Definition iter (v : pyval) : result (list pyval) :=
  match v with
  | PList l => Ok l
  | PDict d => Ok (PStr <$> (map_to_list d).*1)
  | PStr s => Ok ((λ c, PStr (String c EmptyString)) <$> list_ascii_of_string s)
  | _ => Raise TypeError
  end.

(** [v.update(u)] for a dict [u]: the keys of [u] overwrite. *)
Definition update (v : pyval) (u : gmap string pyval) : result pyval :=
  match v with
  | PDict d => Ok (PDict (u ∪ d))
  | _ => Raise AttributeError
  end.

End Py.

(** ** Files, the remote service and the log *)

(** A blob (a file's contents, an HTTP body) is modelled by what it decodes
    to: a JSON document, a zip archive with its members in order (a member
    without contents is a directory entry), or other bytes. *)
Inductive content :=
| Bytes (s : string)
| JsonDoc (v : pyval)
| ZipArchive (members : list (list string * option content)).

Inductive node :=
| Dir
| File (c : content).

(** A path is the list of its components, [os.path.join] appends. *)
Abbreviation path := (list string).

Inductive log_entry :=
| Info (msg : string)
| Error (e : exn).

Record world := World {
  fs : gmap path node;
  log : list log_entry
}.

Record response := Response {
  status_code : Z;
  body : content
}.

(** Statements run in a world; a raise keeps the world reached so far. *)
Definition M (A : Type) : Type := world → result A * world.

#[global] Instance M_ret : MRet M := λ A a w, (Ok a, w).
#[global] Instance M_bind : MBind M := λ A B f c w,
  match c w with
  | (Ok a, w') => f a w'
  | (Raise e, w') => (Raise e, w')
  end.

Definition raise {A} (e : exn) : M A := λ w, (Raise e, w).

Definition lift {A} (r : result A) : M A := λ w, (r, w).

(** [try: c  except Exception as e: h(e)  else: k()]. *)
Definition try_except_else (c : M unit) (h : exn → M unit) (k : M unit) : M unit :=
  λ w, match c w with
       | (Ok _, w') => k w'
       | (Raise e, w') => h e w'
       end.

(** [try: c  except: h]. *)
Definition try_except {A} (c : M A) (h : exn → M A) : M A :=
  λ w, match c w with
       | (Ok a, w') => (Ok a, w')
       | (Raise e, w') => h e w'
       end.

(** [for x in l: body(x)], threading an accumulator. *)
Fixpoint for_each {A S} (l : list A) (body : A → S → M S) (s : S) : M S :=
  match l with
  | [] => mret s
  | x :: l' => s' ← body x s; for_each l' body s'
  end.

Module logging.

Definition info (msg : string) : M unit :=
  λ w, (Ok (), World (fs w) (log w ++ [Info msg])).

Definition error (e : exn) : M unit :=
  λ w, (Ok (), World (fs w) (log w ++ [Error e])).

End logging.

Module os.

(** The root of the tree is a directory. *)
Definition node_at (t : gmap path node) (p : path) : option node :=
  match p with
  | [] => Some Dir
  | _ => t !! p
  end.

Definition exists_ (t : gmap path node) (p : path) : bool :=
  match node_at t p with Some _ => true | None => false end.

Definition isdir (t : gmap path node) (p : path) : bool :=
  match node_at t p with Some Dir => true | _ => false end.

Definition dirname (p : path) : path := removelast p.

Definition basename (p : path) : string := List.last p "".

Fixpoint strip_prefix (p q : path) : option path :=
  match p, q with
  | [], _ => Some q
  | a :: p', b :: q' => if String.eqb a b then strip_prefix p' q' else None
  | _ :: _, [] => None
  end.

(** The names directly under [p]. *)
Definition children (t : gmap path node) (p : path) : list string :=
  omap (λ q, match strip_prefix p q with
             | Some [name] => Some name
             | _ => None
             end) (map_to_list t).*1.

Definition path_exists (p : path) : M bool := λ w, (Ok (exists_ (fs w) p), w).

Definition path_isdir (p : path) : M bool := λ w, (Ok (isdir (fs w) p), w).

Definition listdir (p : path) : M (list string) :=
  λ w, if isdir (fs w) p then (Ok (children (fs w) p), w) else (Raise OSError, w).

(** [os.mkdir]: the parent is a directory and the name is free. *)
Definition mkdir (p : path) : M unit :=
  λ w, if (isdir (fs w) (dirname p) && negb (exists_ (fs w) p))%bool
       then (Ok (), World (<[p := Dir]> (fs w)) (log w))
       else (Raise OSError, w).

(** Create the missing directories of [rest] below [done], top down. *)
Fixpoint mkdirs (done rest : path) (t : gmap path node) : result (gmap path node) :=
  match rest with
  | [] => Ok t
  | name :: rest' =>
      let q := done ++ [name] in
      match node_at t q with
      | Some Dir => mkdirs q rest' t
      | Some (File _) => Raise OSError
      | None => mkdirs q rest' (<[q := Dir]> t)
      end
  end.

(** [os.makedirs]: raises when the leaf exists or a component is a file. *)
Definition makedirs (p : path) : M unit :=
  λ w, if exists_ (fs w) p then (Raise OSError, w)
       else match mkdirs [] p (fs w) with
            | Ok t => (Ok (), World t (log w))
            | Raise e => (Raise e, w)
            end.

(** [os.path.normpath] of the components [name] after the place [base]:
    an empty component and [.] are dropped, [..] takes the last component
    away (at the root there is none to take). *)
Fixpoint normpath (base name : path) : path :=
  match name with
  | [] => base
  | c :: rest =>
      if (String.eqb c "" || String.eqb c ".")%bool then normpath base rest
      else if String.eqb c ".." then normpath (removelast base) rest
      else normpath (base ++ [c]) rest
  end.

End os.

(** [open(p).read()]. *)
Definition read_file (p : path) : M content :=
  λ w, match os.node_at (fs w) p with
       | Some (File c) => (Ok c, w)
       | _ => (Raise IOError, w)
       end.

(** [open(p, 'w')] and writing [c]: the parent is a directory and [p] is
    not one. *)
Definition write_file (p : path) (c : content) : M unit :=
  λ w, if (os.isdir (fs w) (os.dirname p) && negb (os.isdir (fs w) p))%bool
       then (Ok (), World (<[p := File c]> (fs w)) (log w))
       else (Raise IOError, w).

Module json.

Definition loads (c : content) : result pyval :=
  match c with
  | JsonDoc v => Ok v
  | _ => Raise ValueError
  end.

Definition dump (v : pyval) : content := JsonDoc v.

End json.

Module shutil.

(** [shutil.rmtree]: the argument is a directory; it goes with all below. *)
Definition rmtree (p : path) : M unit :=
  λ w, if os.isdir (fs w) p
       then (Ok (),
             World (filter (λ kv, os.strip_prefix p kv.1 = None) (fs w)) (log w))
       else (Raise OSError, w).

(** [shutil.copy]: a directory as destination receives the file under
    its own name; copying a file onto itself is refused. *)
Definition copy (src dst : path) : M unit :=
  d ← os.path_isdir dst;
  let dst' := if d : bool then dst ++ [os.basename src] else dst in
  if bool_decide (src = dst') then raise ShutilError
  else c ← read_file src; write_file dst' c.

End shutil.

Module glob.

Definition hidden (name : string) : bool := String.prefix "." name.

(** [glob.has_magic]: the name has one of the pattern characters [*], [?]
    and [[]. *)
Definition has_magic (name : string) : bool :=
  existsb (λ c, (Ascii.eqb c "*" || Ascii.eqb c "?" || Ascii.eqb c "[")%bool)
          (list_ascii_of_string name).

(** A path that stands for itself when it is pasted into a pattern: none
    of its components has a pattern character. *)
Definition literal (p : path) : bool := forallb (λ c, negb (has_magic c)) p.

(** Does [q] match [base/*/*.po], for a literal [base]?  A star skips dot
    files. *)
Definition matches (base q : path) : bool :=
  match os.strip_prefix base q with
  | Some [d; f] => negb (hidden d) && negb (hidden f) && Py.endswith ".po" f
  | _ => false
  end.

(** [glob.glob(os.path.join(base, "*/*.po"))] for a literal [base]: the
    directory part is pasted into the pattern, and is matched as a name
    here. *)
Definition star_star_po (base : path) : M (list path) :=
  λ w, (Ok (List.filter (matches base) (map_to_list (fs w)).*1), w).

(** Does [q] match [base/*suffix], for a literal [base]? *)
Definition matches_in (base : path) (suffix : string) (q : path) : bool :=
  match os.strip_prefix base q with
  | Some [f] => negb (hidden f) && Py.endswith suffix f
  | _ => false
  end.

(** [glob.glob('%s/*suffix' % base)] for a literal [base]: the entries
    of [base] whose name ends in [suffix].  The directory part is pasted
    into the pattern, and is matched as a name here. *)
Definition star (base : path) (suffix : string) : M (list path) :=
  λ w, (Ok (List.filter (matches_in base suffix) (map_to_list (fs w)).*1), w).

End glob.

Module zipfile.

(** [zipfile.ZipFile(StringIO.StringIO(c))]. *)
Definition ZipFile (c : content) : result (list (path * option content)) :=
  match c with
  | ZipArchive members => Ok members
  | _ => Raise BadZipfile
  end.

(** A member name without empty, [.] and [..] components. *)
Definition plain (name : path) : bool :=
  forallb (λ c, negb (String.eqb c "" || String.eqb c "." || String.eqb c ".."))
          name.

(** An archive all of whose member names are plain. *)
Definition plain_archive (c : content) : bool :=
  match c with
  | ZipArchive members => forallb (λ m, plain m.1) members
  | _ => true
  end.

(** Where [extract] puts a member: one leading slash of the name is
    dropped, the name is joined to the target (a name that is still
    absolute replaces it) and the path is normalised.  This is the library
    up to Python 2.7.3, where [..] components lead out of the target; from
    2.7.4 on it drops the empty, [.] and [..] components instead.  On a
    plain name both give the name below the target. *)
Definition member_path (target name : path) : path :=
  match name with
  | "" :: "" :: rest => os.normpath [] rest
  | "" :: rest => os.normpath target rest
  | _ => os.normpath target name
  end.

(** One member of [extractall]: the upper directories are created when
    missing, then the directory is made or the file written. *)
Definition extract (target : path) (m : path * option content) : M unit :=
  let targetpath := member_path target m.1 in
  let upperdirs := os.dirname targetpath in
  e ← os.path_exists upperdirs;
  _ ← (if (negb (bool_decide (upperdirs = [])) && negb e)%bool
       then os.makedirs upperdirs else mret ());
  match m.2 with
  | None =>
      d ← os.path_isdir targetpath;
      if d : bool then mret () else os.mkdir targetpath
  | Some c => write_file targetpath c
  end.

Definition extractall (z : list (path * option content)) (target : path) : M unit :=
  for_each z (λ m _, extract target m) ().

(** [zipfile.ZipFile(p, 'w')]: the file is opened for writing at once,
    and is empty until the archive is closed. *)
Definition open_w (p : path) : M unit := write_file p (Bytes "").

(** What an archive keeps of a node: the contents of a file, nothing of
    a directory. *)
Definition stored (n : node) : option content :=
  match n with
  | File c => Some c
  | Dir => None
  end.

(** [z.write(filename, arcname=arcname)]: a file is stored with its
    contents, a directory as a directory entry; the member is added after
    those there are. *)
Definition write (filename arcname : path)
    (members : list (path * option content))
  : M (list (path * option content)) :=
  λ w, match os.node_at (fs w) filename with
       | Some n => (Ok (members ++ [(arcname, stored n)]), w)
       | None => (Raise OSError, w)
       end.

(** [z.close()]: the open file now holds the archive. *)
Definition close (p : path) (members : list (path * option content)) : M unit :=
  λ w, (Ok (), World (<[p := File (ZipArchive members)]> (fs w)) (log w)).

End zipfile.

Module requests.

(** [Response.raise_for_status]: client and server errors raise. *)
Definition raise_for_status (r : response) : M unit :=
  if (Z.leb 400 (status_code r) && Z.ltb (status_code r) 600)%bool
  then raise (HTTPError (status_code r))
  else mret ().

End requests.

(** The JSON document stored at [p], when there is one. *)
Definition stored_record (t : gmap path node) (p : path) : option pyval :=
  match os.node_at t p with
  | Some (File (JsonDoc v)) => Some v
  | _ => None
  end.

(** A field of the JSON object stored at [p]. *)
Definition stored_field (t : gmap path node) (p : path) (k : string)
  : option pyval :=
  match stored_record t p with
  | Some (PDict d) => d !! k
  | _ => None
  end.

(** ** The pipeline *)

Definition LANGUAGE_PACK_AVAILABILITY_FILENAME : string :=
  "language_pack_availability.json".

(** The keys of [updated_metadata]. *)
Definition updated_keys : gset string :=
  {[ "percent_translated"; "phrases"; "approved_translations";
     "software_version"; "crowdin_version"; "subtitle_count" ]}.

(** The URL [download_latest_translations] requests (line 96). *)
Definition download_request_url (project_id project_key language_code : string)
  : string :=
  "http://api.crowdin.net/api/project/" +:+ project_id
    +:+ "/download/" +:+ language_code +:+ ".zip?key=" +:+ project_key.

(** The URLs [build_translations] (line 122) and [get_crowdin_meta]
    (line 203) request. *)
Definition export_request_url (project_id project_key : string) : string :=
  "http://api.crowdin.net/api/project/" +:+ project_id
    +:+ "/export?key=" +:+ project_key.

Definition status_request_url (project_id project_key : string) : string :=
  "http://api.crowdin.net/api/project/" +:+ project_id
    +:+ "/status?key=" +:+ project_key +:+ "&json=True".

(** Between two worlds, outside the paths [F] nothing is changed but for
    directories made where there was nothing. *)
Definition writes_only (F : path → Prop) (w w' : world) : Prop :=
  ∀ q, ¬ F q →
    fs w' !! q = fs w !! q ∨ (fs w !! q = None ∧ fs w' !! q = Some Dir).

(** [q] is [p] or below it. *)
Definition below (p q : path) : Prop := ∃ k, q = p ++ k.

(** A statement that, however it ends, writes only at the paths [F]. *)
Definition confined {A} (F : path → Prop) (c : M A) : Prop :=
  ∀ w, writes_only F w (c w).2.

(** [CommandError]: the failure the command itself raises, apart from the
    exceptions of the stages. *)
Inductive command_error :=
| CommandError (msg : string).

Section Pipeline.

(** [version.VERSION], the version of the running software. *)
Variable VERSION : string.

(** [utils.general.version_diff], a three-way comparator: negative when
    its first argument is the older version. *)
Variable version_diff : pyval → pyval → Z.

(** [settings.LOCALE_PATHS[0]], [settings.LANGUAGE_PACK_ROOT],
    [settings.SUBTITLES_DATA_ROOT] and the CrowdIn credentials. *)
Variables LOCALE_ROOT LANGUAGE_PACK_ROOT SUBTITLES_DATA_ROOT : path.
Variables CROWDIN_PROJECT_ID CROWDIN_PROJECT_KEY : string.

(** [shared.i18n.convert_language_code_format(lang_code, for_crowdin)] and
    [shared.i18n.get_language_name]: translations of codes and names. *)
Variable convert_language_code_format : string → bool → string.
Variable get_language_name : string → string.

(** [requests.get]: what the remote service answers to a URL, or the
    exception of a failed connection. *)
Variable requests_get : string → result response.

(** Modelled from the spec: [utils.general.ensure_dir] is not among the
    sources; it guarantees that the directory exists, creating it and its
    parents when missing. *)
Definition ensure_dir (p : path) : M unit :=
  λ w, match os.mkdirs [] p (fs w) with
       | Ok t => (Ok (), World t (log w))
       | Raise e => (Raise e, w)
       end.

Definition increment_crowdin_version (local_meta crowdin_meta : pyval)
  : result pyval :=
  total_translated ← Py.get local_meta "total_translated";
  first ←
    (if negb (Py.truthy total_translated) then Ok true
     else software_version ← Py.get local_meta "software_version";
          Ok (Z.ltb (version_diff software_version (PStr VERSION)) 0));
  if first : bool then Ok (PInt 1)
  else
    approved ← Py.get crowdin_meta "approved";
    if Py.eq total_translated approved then
      crowdin_version ← Py.get local_meta "crowdin_version";
      Ok (Py.or crowdin_version (PInt 1))
    else
      crowdin_version ← Py.get local_meta "crowdin_version";
      Py.add1 crowdin_version.

Definition build_translations (project_id project_key : string) : M unit :=
  _ ← logging.info "Requesting that CrowdIn build a fresh zip of our translations";
  let request_url :=
    "http://api.crowdin.net/api/project/" +:+ project_id
      +:+ "/export?key=" +:+ project_key in
  r ← lift (requests_get request_url);
  try_except_else (requests.raise_for_status r) logging.error (mret ()).

Definition extract_new_po (tmp_dir_path : path) : M unit :=
  _ ← logging.info "Unpacking new translations";
  langs ← os.listdir tmp_dir_path;
  for_each langs (λ lang _,
    let converted_code := convert_language_code_format lang false in
    _ ← ensure_dir (LOCALE_ROOT ++ [converted_code; "LC_MESSAGES"]);
    po_files ← glob.star_star_po (tmp_dir_path ++ [lang]);
    for_each po_files (λ po_file _,
      if Py.contains "js" (os.basename po_file)
      then shutil.copy po_file
             (LOCALE_ROOT ++ [converted_code; "LC_MESSAGES"; "djangojs.po"])
      else shutil.copy po_file
             (LOCALE_ROOT ++ [converted_code; "LC_MESSAGES"; "django.po"])) ()) ().

(** The statements of [download_latest_translations] from the unpacking
    on: lines 105 to 111, then the cleanup of lines 113 to 115. *)
Definition unpack_and_copy (r : response) (tmp_dir_path : path) : M unit :=
  z ← lift (zipfile.ZipFile (body r));
  _ ← zipfile.extractall z tmp_dir_path;
  extract_new_po tmp_dir_path.

Definition clean_up (tmp_dir_path : path) : M unit :=
  e ← os.path_exists tmp_dir_path;
  if e : bool then shutil.rmtree tmp_dir_path else mret ().

Definition download_latest_translations
    (project_id project_key language_code : string) : M unit :=
  _ ← build_translations CROWDIN_PROJECT_ID CROWDIN_PROJECT_KEY;
  _ ← logging.info "Attempting to download a zip archive of current translations";
  let request_url :=
    "http://api.crowdin.net/api/project/" +:+ project_id
      +:+ "/download/" +:+ language_code +:+ ".zip?key=" +:+ project_key in
  r ← lift (requests_get request_url);
  _ ← try_except_else (requests.raise_for_status r) logging.error
        (logging.info "Successfully downloaded zip archive");
  let tmp_dir_path := LOCALE_ROOT ++ ["tmp"] in
  _ ← unpack_and_copy r tmp_dir_path;
  clean_up tmp_dir_path.

Definition get_crowdin_meta (project_id project_key : string) : M pyval :=
  let request_url :=
    "http://api.crowdin.net/api/project/" +:+ project_id
      +:+ "/status?key=" +:+ project_key +:+ "&json=True" in
  r ← lift (requests_get request_url);
  _ ← requests.raise_for_status r;
  lift (json.loads (body r)).

(** [next((meta for meta in metas if meta["code"] == code), None)]. *)
Fixpoint next_matching (code : string) (metas : list pyval) : result pyval :=
  match metas with
  | [] => Ok PNone
  | meta :: rest =>
      c ← Py.getitem meta "code";
      if Py.eq c (PStr code) then Ok meta else next_matching code rest
  end.

Definition metadata_path (lang : string) : path :=
  LOCALE_ROOT ++ [lang; lang +:+ "_metadata.json"].

(** The record made when the stored one cannot be loaded (lines 162-165). *)
Definition fresh_meta (crowdin_meta : pyval) : result pyval :=
  code ← Py.get crowdin_meta "code";
  name ← Py.get crowdin_meta "name";
  Ok (PDict (<["code" := code]> (<["name" := name]> ∅))).

(** Line 158: the entry of the remote status for [lang], or None. *)
Definition crowdin_meta_for (crowdin_meta_dict : pyval) (lang : string)
  : result pyval :=
  metas ← Py.iter crowdin_meta_dict;
  next_matching (convert_language_code_format lang true) metas.

(** Lines 159 to 165: the stored record, or a fresh one when it does not
    load. *)
Definition load_local_meta (lang : string) (crowdin_meta : pyval) : M pyval :=
  try_except
    (c ← read_file (metadata_path lang); lift (json.loads c))
    (λ _, lift (fresh_meta crowdin_meta)).

(** The dict display of lines 175 to 182, its values in source order. *)
Definition updated_metadata (local_meta crowdin_meta srt_count : pyval)
  : result (gmap string pyval) :=
  approved_progress ← Py.get crowdin_meta "approved_progress";
  percent_translated ← Py.int approved_progress;
  phrases ← Py.get crowdin_meta "phrases";
  phrases ← Py.int phrases;
  approved ← Py.get crowdin_meta "approved";
  approved_translations ← Py.int approved;
  crowdin_version ← increment_crowdin_version local_meta crowdin_meta;
  Ok (<["percent_translated" := PInt percent_translated]>
      (<["phrases" := PInt phrases]>
      (<["approved_translations" := PInt approved_translations]>
      (<["software_version" := PStr VERSION]>
      (<["crowdin_version" := crowdin_version]>
      (<["subtitle_count" := srt_count]> ∅)))))).

(** The body of the loop of [generate_metadata] for one entry [lang] of
    the locale root (lines 155 to 191). *)
Definition generate_metadata_locale (crowdin_meta_dict subtitle_counts : pyval)
    (lang : string) (master_file : list pyval) : M (list pyval) :=
  d ← os.path_isdir (LOCALE_ROOT ++ [lang]);
  if negb d then mret master_file
  else
    crowdin_meta ← lift (crowdin_meta_for crowdin_meta_dict lang);
    local_meta ← load_local_meta lang crowdin_meta;
    entry ← lift (Py.get subtitle_counts (get_language_name lang));
    srt_count ← lift (if Py.truthy entry then Py.get entry "count"
                      else Ok (PInt 0));
    updated ← lift (updated_metadata local_meta crowdin_meta srt_count);
    local_meta ← lift (Py.update local_meta updated);
    _ ← write_file (metadata_path lang) (json.dump local_meta);
    mret (master_file ++ [local_meta]).

Definition generate_metadata : M unit :=
  _ ← logging.info "Generating new po file metadata";
  crowdin_meta_dict ← get_crowdin_meta CROWDIN_PROJECT_ID CROWDIN_PROJECT_KEY;
  c ← read_file (SUBTITLES_DATA_ROOT ++ ["subtitle_counts.json"]);
  subtitle_counts ← lift (json.loads c);
  langs ← os.listdir LOCALE_ROOT;
  master_file ← for_each langs
                  (generate_metadata_locale crowdin_meta_dict subtitle_counts) [];
  _ ← ensure_dir LANGUAGE_PACK_ROOT;
  _ ← write_file (LANGUAGE_PACK_ROOT ++ [LANGUAGE_PACK_AVAILABILITY_FILENAME])
        (json.dump (PList master_file));
  logging.info "Local record of translations updated".

(** [settings.STATIC_ROOT]. *)
Variable STATIC_ROOT : path.

(** [update_po.compile_all_po_files], the stage that compiles the
    catalogs. *)
Variable compile_all_po_files : M unit.

(** [django.core.management.call_command] with its keyword arguments. *)
Variable call_command : string → list (string * pyval) → M unit.

(** ['{0.month}/{0.day}/{0.year}'.format(datetime.date.today() -
    datetime.timedelta(n))]: the date [n] days ago, or the exception of a
    date out of range. *)
Variable date_days_ago : Z → result string.

(** The body of the loop of [zip_language_packs] for one entry [lang] of
    the locale root (lines 230 to 242).  The paths the globs give are
    absolute, so [os.path.join(lang_locale_path, f)] is [f]. *)
Definition zip_language_pack (lang : string) : M unit :=
  d ← os.path_isdir (LOCALE_ROOT ++ [lang]);
  if negb d then mret ()
  else
    let zip_path := LANGUAGE_PACK_ROOT ++ [VERSION] in
    _ ← ensure_dir zip_path;
    let z := zip_path ++ [convert_language_code_format lang false +:+ ".zip"] in
    _ ← zipfile.open_w z;
    let lang_locale_path := LOCALE_ROOT ++ [lang] in
    metadata_files ← glob.star lang_locale_path ".json";
    members ← for_each metadata_files
                (λ metadata_file,
                   zipfile.write metadata_file [os.basename metadata_file]) [];
    mo_files ← glob.star (lang_locale_path ++ ["LC_MESSAGES"]) ".mo";
    members ← for_each mo_files
                (λ mo_file,
                   zipfile.write mo_file ["LC_MESSAGES"; os.basename mo_file])
                members;
    zipfile.close z members.

Definition zip_language_packs : M unit :=
  _ ← logging.info "Zipping up language packs";
  _ ← ensure_dir LANGUAGE_PACK_ROOT;
  langs ← os.listdir LOCALE_ROOT;
  _ ← for_each langs (λ lang _, zip_language_pack lang) ();
  logging.info "Done.".

Definition update_language_packs : M unit :=
  _ ← download_latest_translations CROWDIN_PROJECT_ID CROWDIN_PROJECT_KEY "all";
  _ ← generate_metadata;
  _ ← compile_all_po_files;
  zip_language_packs.

Definition update_srts (days : pyval) : M unit :=
  n ← lift (Py.int days);
  date ← lift (date_days_ago n);
  _ ← logging.info
        ("Updating subtitles that haven't been refreshed since " +:+ date);
  _ ← call_command "generate_subtitle_map" [("date_since_attempt", PStr date)];
  call_command "cache_subtitles"
    [("date_since_attempt", PStr date); ("lang_code", PStr "all")].

Definition raise_if_outdated_srt_schema (w : world) : option command_error :=
  if os.exists_ (fs w) (STATIC_ROOT ++ ["srt"])
  then Some (CommandError
               "Please run the command 'move_existing_srts' before continuing.")
  else None.

(** [Command.handle], on the value of [options["days"]]. *)
Definition handle (days : pyval) (w : world)
  : (command_error + result ()) * world :=
  match raise_if_outdated_srt_schema w with
  | Some e => (inl e, w)
  | None =>
      let out := ((if Py.truthy days then update_srts days else mret ())
                  ≫= λ _, update_language_packs) w in
      (inr out.1, out.2)
  end.

End Pipeline.

(** ** The entry point (manage.py) *)

Module manage.

(** Lines 32 to 37: in debug mode each debugging flag is added unless it
    is there. *)
Definition kaserve (DEBUG : bool) (argv : list string) : list string :=
  if DEBUG
  then foldl (λ argv flag,
                let dashed_flag := "--" +:+ flag in
                if bool_decide (dashed_flag ∈ argv) then argv
                else argv ++ [dashed_flag])
             argv ["traceback"]
  else argv.

(** Lines 43 and 44: [clean_pyc] alone gets the default path. *)
Definition clean_pyc (argv : list string) : list string :=
  if (bool_decide (List.length argv = 2%nat)
      && bool_decide (argv !! 1%nat = Some "clean_pyc"))%bool
  then argv ++ ["--path"; ".."] else argv.

(** Lines 50 and 51: the development server does not serve static
    files. *)
Definition static_files (argv : list string) : list string :=
  if (bool_decide ("runserver" ∈ argv)
      && negb (bool_decide ("--nostatic" ∈ argv)))%bool
  then argv ++ ["--nostatic"] else argv.

(** What the script makes of [sys.argv] before it hands over to the
    command framework. *)
Definition argv (DEBUG : bool) (argv : list string) : list string :=
  static_files (clean_pyc (kaserve DEBUG argv)).

End manage.

(** ** A concrete installation, for running the pipeline *)

Module Scenario.

Definition split_dots : string → list string :=
  fix go (s : string) : list string :=
    match s with
    | EmptyString => [EmptyString]
    | String c s' =>
        if Ascii.eqb c "." then EmptyString :: go s'
        else match go s' with
             | part :: parts => String c part :: parts
             | [] => [String c EmptyString]
             end
    end.

Fixpoint first_diff (a b : list Z) : Z :=
  match a, b with
  | x :: a', y :: b' => if Z.eqb x y then first_diff a' b' else x - y
  | _, _ => 0
  end.

Definition components (v : string) : list Z :=
  (λ part, default 0 (Py.int_of_string part)) <$> split_dots v.

(** Modelled from the spec: [utils.general.version_diff] is not among the
    sources; a three-way comparator returning negative, zero or positive,
    here the difference of the leftmost differing component of two dotted
    versions (values that are not strings compare equal). *)
Definition version_diff (v1 v2 : pyval) : Z :=
  match v1, v2 with
  | PStr a, PStr b => first_diff (components a) (components b)
  | _, _ => 0
  end.

Definition LOCALE_ROOT : path := ["locale"].
Definition LANGUAGE_PACK_ROOT : path := ["static"; "language_packs"].
Definition SUBTITLES_DATA_ROOT : path := ["data"; "subtitles"].
Definition CROWDIN_PROJECT_ID : string := "ka-lite".
Definition CROWDIN_PROJECT_KEY : string := "k3y".

(** Codes and names of a site whose local and remote codes coincide. *)
Definition convert_language_code_format (lang_code : string) (for_crowdin : bool)
  : string := lang_code.

Definition get_language_name (lang_code : string) : string :=
  if String.eqb lang_code "es" then "Spanish" else lang_code.

Definition export_url : string :=
  "http://api.crowdin.net/api/project/ka-lite/export?key=k3y".
Definition download_url : string :=
  "http://api.crowdin.net/api/project/ka-lite/download/all.zip?key=k3y".
Definition status_url : string :=
  "http://api.crowdin.net/api/project/ka-lite/status?key=k3y&json=True".

(** A remote service answering the three requests of a run. *)
Definition remote (export download status : result response) (url : string)
  : result response :=
  if String.eqb url export_url then export
  else if String.eqb url download_url then download
  else if String.eqb url status_url then status
  else Raise ConnectionError.

Definition dict (l : list (string * pyval)) : gmap string pyval := list_to_map l.

Definition tree (l : list (path * node)) : gmap path node := list_to_map l.

(** A status entry: 100 phrases, [approved] of them approved. *)
Definition status (code name : string) (approved : Z) : pyval :=
  PDict (dict [("code", PStr code); ("name", PStr name);
               ("phrases", PInt 100); ("approved", PInt approved);
               ("approved_progress", PInt approved)]).

Definition es_status (approved : Z) : pyval := status "es" "Spanish" approved.

(** A stored record with a translated count, a version and the software
    version it was built for. *)
Definition record (total_translated crowdin_version : Z)
    (software_version : string) : gmap string pyval :=
  dict [("total_translated", PInt total_translated);
        ("crowdin_version", PInt crowdin_version);
        ("software_version", PStr software_version)].

(** The stored record of the spec's scenarios. *)
Definition es_record : gmap string pyval := record 80 3 "1.0".

Definition subtitle_counts : pyval :=
  PDict (dict [("Spanish", PDict (dict [("count", PInt 7)]))]).

Definition es_po_archive : content :=
  ZipArchive [(["es"; "versioned"; "django.po"], Some (Bytes "msgid"));
              (["es"; "versioned"; "djangojs.po"], Some (Bytes "msgid js"))].

Definition fr_po_archive : content :=
  ZipArchive [(["fr"; "versioned"; "django.po"], Some (Bytes "msgid fr"))].

(** An archive with a directory whose name ends in [.po]. *)
Definition po_directory_archive : content :=
  ZipArchive [(["es"; "versioned"; "django.po"; "README"], Some (Bytes "x"))].

Definition site : gmap path node :=
  tree [(["locale"], Dir); (["locale"; "es"], Dir);
        (["data"], Dir); (["data"; "subtitles"], Dir);
        (["data"; "subtitles"; "subtitle_counts.json"],
           File (JsonDoc subtitle_counts));
        (["static"], Dir)].

Definition site_with_record : gmap path node :=
  <[ ["locale"; "es"; "es_metadata.json"] := File (JsonDoc (PDict es_record)) ]> site.

Definition es_metadata : path := ["locale"; "es"; "es_metadata.json"].

(** A run of [generate_metadata] for software version [version] against a
    remote status reporting [approved] approved phrases for [es]. *)
Definition merge (version : string) (approved : Z) (t : gmap path node)
  : result () * world :=
  generate_metadata version version_diff LOCALE_ROOT LANGUAGE_PACK_ROOT
    SUBTITLES_DATA_ROOT CROWDIN_PROJECT_ID CROWDIN_PROJECT_KEY
    convert_language_code_format get_language_name
    (remote (Raise ConnectionError) (Raise ConnectionError)
       (Ok (Response 200 (JsonDoc (PList [es_status approved])))))
    (World t []).

(** One step of the loop of [generate_metadata], for [es]. *)
Definition merge_locale (version : string) (status : list pyval)
    (t : gmap path node) : result (list pyval) * world :=
  generate_metadata_locale version version_diff LOCALE_ROOT
    convert_language_code_format get_language_name
    (PList status) subtitle_counts "es" [] (World t []).

(** The index a completed step returns. *)
Definition index_of (out : result (list pyval) * world) : list pyval :=
  match out.1 with
  | Ok master_file => master_file
  | Raise _ => []
  end.

(** A run of [download_latest_translations] with its default arguments
    against a remote that answers the download with [r]. *)
Definition fetch (r : response) (t : gmap path node) : result () * world :=
  download_latest_translations LOCALE_ROOT CROWDIN_PROJECT_ID
    CROWDIN_PROJECT_KEY convert_language_code_format
    (remote (Ok (Response 200 (Bytes "ok"))) (Ok r) (Raise ConnectionError))
    CROWDIN_PROJECT_ID CROWDIN_PROJECT_KEY "all" (World t []).

(** A locale with its metadata and a compiled catalog, ready to pack. *)
Definition packed_site : gmap path node :=
  tree [(["locale"], Dir); (["locale"; "es"], Dir);
        (["locale"; "es"; "es_metadata.json"], File (JsonDoc (PDict es_record)));
        (["locale"; "es"; "notes.txt"], File (Bytes "n"));
        (["locale"; "es"; "LC_MESSAGES"], Dir);
        (["locale"; "es"; "LC_MESSAGES"; "django.mo"], File (Bytes "mo"));
        (["locale"; "es"; "LC_MESSAGES"; "django.po"], File (Bytes "msgid"));
        (["static"], Dir)].

(** One step of [zip_language_packs]. *)
Definition zip (version lang : string) (t : gmap path node) : result () * world :=
  zip_language_pack version LOCALE_ROOT LANGUAGE_PACK_ROOT
    convert_language_code_format lang (World t []).

Definition STATIC_ROOT : path := ["static"].

(** Stages outside the module: they leave a line in the log. *)
Definition compile_all_po_files : M unit := logging.info "compile_all_po_files".

Definition call_command (name : string) (options : list (string * pyval))
  : M unit := logging.info name.

Definition date_days_ago (n : Z) : result string := Ok "10/5/2013".

(** A run of the command with [--days] as given. *)
Definition command (days : pyval) (r : string → result response)
    (t : gmap path node) : (command_error + result ()) * world :=
  handle "1.0" version_diff LOCALE_ROOT LANGUAGE_PACK_ROOT SUBTITLES_DATA_ROOT
    CROWDIN_PROJECT_ID CROWDIN_PROJECT_KEY convert_language_code_format
    get_language_name r STATIC_ROOT compile_all_po_files call_command
    date_days_ago days (World t []).

End Scenario.

(** * Properties *)

(** ** Running statements *)

Lemma bind_ok {A B} (c : M A) (k : A → M B) (w w' : world) (b : B) :
  (c ≫= k) w = (Ok b, w') →
  ∃ a w1, c w = (Ok a, w1) ∧ k a w1 = (Ok b, w').
Proof.
  unfold mbind, M_bind. destruct (c w) as [[a|e] w1]; intros H.
  - eauto.
  - discriminate.
Qed.

Lemma bind_raise {A B} (c : M A) (k : A → M B) (w w1 : world) (e : exn) :
  c w = (Raise e, w1) → (c ≫= k) w = (Raise e, w1).
Proof. unfold mbind, M_bind. now intros ->. Qed.

Lemma bind_step {A B} (c : M A) (k : A → M B) (w w1 : world) (a : A) :
  c w = (Ok a, w1) → (c ≫= k) w = k a w1.
Proof. unfold mbind, M_bind. now intros ->. Qed.

Lemma lift_ok {A} (r : result A) (w w' : world) (a : A) :
  lift r w = (Ok a, w') → r = Ok a ∧ w' = w.
Proof. unfold lift. intros [= -> ->]. auto. Qed.

Lemma result_bind_ok {A B} (r : result A) (k : A → result B) (b : B) :
  r ≫= k = Ok b → ∃ a, r = Ok a ∧ k a = Ok b.
Proof. destruct r as [a|e]; simpl; [eauto | discriminate]. Qed.

Lemma node_at_snoc (t : gmap path node) (p : path) (name : string) :
  os.node_at t (p ++ [name]) = t !! (p ++ [name]).
Proof. unfold os.node_at. destruct p; reflexivity. Qed.

Lemma node_at_app_cons (t : gmap path node) (p q : path) (name : string) :
  os.node_at t (p ++ name :: q) = t !! (p ++ name :: q).
Proof. unfold os.node_at. destruct p; reflexivity. Qed.

Lemma strip_prefix_refl (p : path) : os.strip_prefix p p = Some [].
Proof.
  induction p as [|a p IH]; simpl; [reflexivity|].
  now rewrite String.eqb_refl.
Qed.

(** ** The version policy *)

Section VersionPolicyFacts.

Variable VERSION : string.
Variable version_diff : pyval → pyval → Z.

#[local] Abbreviation next_version := (increment_crowdin_version VERSION version_diff).

(** On a dict the three branches are decided by one test on the stored
    count and the version comparison. *)
Lemma increment_crowdin_version_dict (d : gmap string pyval) (crowdin_meta : pyval) :
  next_version (PDict d) crowdin_meta =
  if (negb (Py.truthy (Py.get_field d "total_translated"))
      || Z.ltb (version_diff (Py.get_field d "software_version") (PStr VERSION)) 0)%bool
  then Ok (PInt 1)
  else
    approved ← Py.get crowdin_meta "approved";
    if Py.eq (Py.get_field d "total_translated") approved
    then Ok (Py.or (Py.get_field d "crowdin_version") (PInt 1))
    else Py.add1 (Py.get_field d "crowdin_version").
Proof.
  unfold increment_crowdin_version. simpl.
  destruct (Py.truthy (Py.get_field d "total_translated")); simpl; [|reflexivity].
  destruct (Z.ltb _ 0); simpl; [reflexivity|].
  destruct (Py.get crowdin_meta "approved") as [approved|e]; simpl; [|reflexivity].
  destruct (Py.eq _ approved); reflexivity.
Qed.

(** A record that is not a dict has no [get]. *)
Lemma increment_crowdin_version_not_dict (local_meta crowdin_meta : pyval) :
  (∀ d, local_meta ≠ PDict d) →
  next_version local_meta crowdin_meta = Raise AttributeError.
Proof.
  intros H. unfold increment_crowdin_version.
  destruct local_meta; try reflexivity. now destruct (H d).
Qed.

(** The first run: the record made from the remote entry has no count. *)
Lemma increment_crowdin_version_fresh (crowdin_meta local_meta status : pyval) :
  fresh_meta crowdin_meta = Ok local_meta →
  next_version local_meta status = Ok (PInt 1).
Proof.
  unfold fresh_meta. intros H.
  apply result_bind_ok in H as (code & _ & H).
  apply result_bind_ok in H as (name & _ & [= <-]).
  rewrite increment_crowdin_version_dict.
  unfold Py.get_field at 1.
  rewrite lookup_insert_ne by discriminate.
  rewrite lookup_insert_ne by discriminate.
  rewrite lookup_empty. reflexivity.
Qed.

(** C8.  [increment_crowdin_version] returns 1, for every remote status,
    when the previous record has no recorded total-translated count (the
    key is missing or null, as on the first run) or when the previous
    record's software version is older than the current one
    ([version_diff] is negative). *)
Theorem increment_crowdin_version_first
    (d : gmap string pyval) (crowdin_meta : pyval) :
  Py.get_field d "total_translated" = PNone ∨
  (version_diff (Py.get_field d "software_version") (PStr VERSION) < 0)%Z →
  next_version (PDict d) crowdin_meta = Ok (PInt 1).
Proof.
  intros H. rewrite increment_crowdin_version_dict.
  destruct H as [-> | H]; [reflexivity|].
  apply Z.ltb_lt in H. rewrite H.
  now rewrite Bool.orb_true_r.
Qed.

(** C10.  A recorded [total_translated] of 0 is treated as no recorded
    count: the result is 1 whatever the stored [crowdin_version], the
    software version and the current approved count are, and it is the
    result for the same record without the key. *)
Theorem increment_crowdin_version_zero_count
    (d : gmap string pyval) (crowdin_meta : pyval) :
  d !! "total_translated" = Some (PInt 0) →
  next_version (PDict d) crowdin_meta = Ok (PInt 1) ∧
  next_version (PDict d) crowdin_meta =
    next_version (PDict (delete "total_translated" d)) crowdin_meta.
Proof.
  intros H.
  assert (Hd : Py.get_field d "total_translated" = PInt 0)
    by (unfold Py.get_field; now rewrite H).
  assert (Hn : Py.get_field (delete "total_translated" d) "total_translated" = PNone)
    by (unfold Py.get_field; now rewrite lookup_delete_eq).
  rewrite !increment_crowdin_version_dict, Hd, Hn.
  split; reflexivity.
Qed.

(** C4, as the code has it.  When the first branch does not apply (the
    previous count is non-zero and the previous software version is not
    older than the current one) and the previous count equals the current
    approved count, the result is the previous [crowdin_version] if it is
    present and non-zero, else 1. *)
Theorem increment_crowdin_version_unchanged
    (d status : gmap string pyval) :
  Py.truthy (Py.get_field d "total_translated") = true →
  (0 ≤ version_diff (Py.get_field d "software_version") (PStr VERSION))%Z →
  Py.eq (Py.get_field d "total_translated") (Py.get_field status "approved") = true →
  next_version (PDict d) (PDict status) =
    Ok (Py.or (Py.get_field d "crowdin_version") (PInt 1)).
Proof.
  intros Ht Hv He. rewrite increment_crowdin_version_dict, Ht.
  apply Z.ltb_ge in Hv. rewrite Hv. simpl. now rewrite He.
Qed.

(** C5, as the code has it.  When the previous count is non-zero and
    differs from the current approved count, the previous software version
    is not older than the current one, and the stored [crowdin_version] is
    an integer, the result is exactly that integer plus 1. *)
Theorem increment_crowdin_version_changed
    (d status : gmap string pyval) (crowdin_version : Z) :
  Py.truthy (Py.get_field d "total_translated") = true →
  (0 ≤ version_diff (Py.get_field d "software_version") (PStr VERSION))%Z →
  Py.eq (Py.get_field d "total_translated") (Py.get_field status "approved") = false →
  d !! "crowdin_version" = Some (PInt crowdin_version) →
  next_version (PDict d) (PDict status) = Ok (PInt (crowdin_version + 1)).
Proof.
  intros Ht Hv He Hc. rewrite increment_crowdin_version_dict, Ht.
  apply Z.ltb_ge in Hv. rewrite Hv. simpl. rewrite He.
  unfold Py.get_field. now rewrite Hc.
Qed.


End VersionPolicyFacts.

(** ** The metadata merger *)

Section MergerFacts.

Variable VERSION : string.
Variable version_diff : pyval → pyval → Z.
Variables LOCALE_ROOT : path.
Variable convert_language_code_format : string → bool → string.
Variable get_language_name : string → string.

#[local] Abbreviation locale_step :=
  (generate_metadata_locale VERSION version_diff LOCALE_ROOT
     convert_language_code_format get_language_name).
#[local] Abbreviation meta_file := (metadata_path LOCALE_ROOT).
#[local] Abbreviation remote_entry :=
  (crowdin_meta_for convert_language_code_format).
#[local] Abbreviation local_record := (load_local_meta LOCALE_ROOT).
#[local] Abbreviation updates := (updated_metadata VERSION version_diff).

(** Loading never changes the world: it gives the stored document, or the
    fresh record when there is none. *)
Lemma load_local_meta_spec (lang : string) (crowdin_meta : pyval) (w : world) :
  local_record lang crowdin_meta w =
  (match stored_record (fs w) (meta_file lang) with
   | Some v => Ok v
   | None => fresh_meta crowdin_meta
   end, w).
Proof.
  unfold load_local_meta, try_except, mbind, M_bind, read_file, stored_record.
  destruct (os.node_at (fs w) (meta_file lang)) as [[|c]|]; try reflexivity.
  destruct c; reflexivity.
Qed.

Lemma fresh_meta_dom (crowdin_meta local_meta : pyval) :
  fresh_meta crowdin_meta = Ok local_meta →
  ∃ d, local_meta = PDict d ∧ dom d = {[ "code"; "name" ]}.
Proof.
  unfold fresh_meta. intros H.
  apply result_bind_ok in H as (code & _ & H).
  apply result_bind_ok in H as (name & _ & [= <-]).
  eexists. split; [reflexivity|].
  rewrite !dom_insert_L, dom_empty_L. set_solver.
Qed.

(** The dict display has exactly the six updated keys. *)
Lemma updated_metadata_ok (local_meta crowdin_meta srt_count : pyval)
    (u : gmap string pyval) :
  updates local_meta crowdin_meta srt_count = Ok u →
  dom u = updated_keys ∧
  ∃ crowdin_version,
    increment_crowdin_version VERSION version_diff local_meta crowdin_meta
      = Ok crowdin_version ∧
    u !! "crowdin_version" = Some crowdin_version.
Proof.
  unfold updated_metadata. intros H.
  apply result_bind_ok in H as (? & _ & H).
  apply result_bind_ok in H as (percent & _ & H).
  apply result_bind_ok in H as (? & _ & H).
  apply result_bind_ok in H as (phrases & _ & H).
  apply result_bind_ok in H as (? & _ & H).
  apply result_bind_ok in H as (approved & _ & H).
  apply result_bind_ok in H as (crowdin_version & Hv & [= <-]).
  split.
  - rewrite !dom_insert_L, dom_empty_L. unfold updated_keys. set_solver.
  - exists crowdin_version. split; [exact Hv|].
    now rewrite !lookup_insert_ne, lookup_insert_eq by discriminate.
Qed.

(** What a completed step of the loop did: it merged the six updates into
    the loaded record, stored the result and appended it to the index. *)
Lemma generate_metadata_locale_ok (crowdin_meta_dict subtitle_counts : pyval)
    (lang : string) (master_file master_file' : list pyval) (w w' : world) :
  os.isdir (fs w) (LOCALE_ROOT ++ [lang]) = true →
  locale_step crowdin_meta_dict subtitle_counts lang master_file w
    = (Ok master_file', w') →
  ∃ crowdin_meta prior srt_count u,
    remote_entry crowdin_meta_dict lang = Ok crowdin_meta ∧
    local_record lang crowdin_meta w = (Ok (PDict prior), w) ∧
    updates (PDict prior) crowdin_meta srt_count = Ok u ∧
    fs w' = <[meta_file lang := File (JsonDoc (PDict (u ∪ prior)))]> (fs w) ∧
    log w' = log w ∧
    master_file' = master_file ++ [PDict (u ∪ prior)].
Proof.
  intros Hdir H. unfold generate_metadata_locale in H.
  apply bind_ok in H as (d & w0 & Hd & H).
  unfold os.path_isdir in Hd. injection Hd as <- <-. rewrite Hdir in H.
  simpl in H.
  apply bind_ok in H as (crowdin_meta & w1 & Hc & H).
  apply lift_ok in Hc as [Hc ->].
  apply bind_ok in H as (local_meta & w1 & Hl & H).
  pose proof (load_local_meta_spec lang crowdin_meta w) as Hs.
  rewrite Hl in Hs. injection Hs as Hs ->.
  apply bind_ok in H as (entry & w1 & He & H).
  apply lift_ok in He as [He ->].
  apply bind_ok in H as (srt_count & w1 & Hn & H).
  apply lift_ok in Hn as [Hn ->].
  apply bind_ok in H as (u & w1 & Hu & H).
  apply lift_ok in Hu as [Hu ->].
  apply bind_ok in H as (merged & w1 & Hm & H).
  apply lift_ok in Hm as [Hm ->].
  apply bind_ok in H as ([] & w1 & Hw & H).
  injection H as <- <-.
  destruct local_meta as [| | | | |prior]; try discriminate.
  injection Hm as <-.
  unfold write_file in Hw.
  destruct (os.isdir (fs w) (os.dirname (meta_file lang))
            && negb (os.isdir (fs w) (meta_file lang)))%bool;
    [|discriminate].
  injection Hw as <-.
  exists crowdin_meta, prior, srt_count, u.
  repeat split; try assumption; try reflexivity.
Qed.

Lemma stored_record_insert (t : gmap path node) (lang : string) (v : pyval) :
  stored_record (<[meta_file lang := File (JsonDoc v)]> t) (meta_file lang)
    = Some v.
Proof.
  unfold stored_record, metadata_path.
  rewrite node_at_app_cons, lookup_insert_eq. reflexivity.
Qed.

(** C9.  In every merge performed by [generate_metadata], each field of
    the prior record (the stored record, or the fresh one when none
    loads) that is not one of the six updated keys is in the merged
    record, which is the one stored and appended to the index, with its
    prior value. *)
Theorem generate_metadata_preserves_other_fields
    (crowdin_meta_dict subtitle_counts : pyval) (lang : string)
    (master_file master_file' : list pyval) (w w' : world) :
  os.isdir (fs w) (LOCALE_ROOT ++ [lang]) = true →
  locale_step crowdin_meta_dict subtitle_counts lang master_file w
    = (Ok master_file', w') →
  ∃ crowdin_meta prior merged,
    remote_entry crowdin_meta_dict lang = Ok crowdin_meta ∧
    local_record lang crowdin_meta w = (Ok (PDict prior), w) ∧
    (∀ v, stored_record (fs w) (meta_file lang) = Some v → v = PDict prior) ∧
    stored_record (fs w') (meta_file lang) = Some (PDict merged) ∧
    master_file' = master_file ++ [PDict merged] ∧
    ∀ k, k ∉ updated_keys → merged !! k = prior !! k.
Proof.
  intros Hdir H.
  destruct (generate_metadata_locale_ok _ _ _ _ _ _ _ Hdir H)
    as (crowdin_meta & prior & srt_count & u & Hc & Hl & Hu & Hfs & _ & Hm).
  exists crowdin_meta, prior, (u ∪ prior).
  split; [exact Hc|]. split; [exact Hl|]. split.
  - intros v Hv. rewrite load_local_meta_spec, Hv in Hl. congruence.
  - split; [rewrite Hfs; apply stored_record_insert|].
    split; [exact Hm|].
    intros k Hk. apply lookup_union_r, not_elem_of_dom.
    apply updated_metadata_ok in Hu as [-> _]. exact Hk.
Qed.

(** C2, as the code has it.  The keys of the record a merge stores are
    the six updated keys together with the keys of the stored record it
    loaded, or with [code] and [name] when no stored record loads;
    [total_translated] is never written, so the stored result has it only
    if the record stored before had it. *)
Theorem generate_metadata_written_keys
    (crowdin_meta_dict subtitle_counts : pyval) (lang : string)
    (master_file master_file' : list pyval) (w w' : world) :
  os.isdir (fs w) (LOCALE_ROOT ++ [lang]) = true →
  locale_step crowdin_meta_dict subtitle_counts lang master_file w
    = (Ok master_file', w') →
  ∃ merged,
    stored_record (fs w') (meta_file lang) = Some (PDict merged) ∧
    match stored_record (fs w) (meta_file lang) with
    | Some v => ∃ prior, v = PDict prior ∧ dom merged = updated_keys ∪ dom prior
    | None => dom merged = updated_keys ∪ {[ "code"; "name" ]}
    end ∧
    ("total_translated" ∈ dom merged →
     ∃ prior, stored_record (fs w) (meta_file lang) = Some (PDict prior) ∧
              "total_translated" ∈ dom prior).
Proof.
  intros Hdir H.
  destruct (generate_metadata_locale_ok _ _ _ _ _ _ _ Hdir H)
    as (crowdin_meta & prior & srt_count & u & _ & Hl & Hu & Hfs & _ & _).
  apply updated_metadata_ok in Hu as [Hu _].
  exists (u ∪ prior).
  split; [rewrite Hfs; apply stored_record_insert|].
  rewrite dom_union_L, Hu.
  rewrite load_local_meta_spec in Hl.
  destruct (stored_record (fs w) (meta_file lang)) as [v|].
  - injection Hl as ->. split; [now exists prior|].
    intros Hk. exists prior. split; [reflexivity|].
    unfold updated_keys in Hk. set_solver.
  - injection Hl as Hl. apply fresh_meta_dom in Hl as (d & [= <-] & Hd).
    rewrite Hd. split; [reflexivity|].
    intros Hk. unfold updated_keys in Hk. set_solver.
Qed.


Lemma next_matching_unmatched (code : string) (metas : list pyval) :
  Forall (λ meta, ∃ c, Py.getitem meta "code" = Ok c ∧
                       Py.eq c (PStr code) = false) metas →
  next_matching code metas = Ok PNone.
Proof.
  induction 1 as [|meta metas (c & Hc & Hne) _ IH]; simpl; [reflexivity|].
  rewrite Hc. simpl. now rewrite Hne.
Qed.

(** C7.  For a locale directory none of whose remote status entries has
    its code, the step of the loop raises AttributeError, with the world
    as it was: nothing handles the missing entry. *)
Theorem generate_metadata_locale_unmatched
    (metas : list pyval) (subtitle_counts : pyval) (lang : string)
    (master_file : list pyval) (w : world) :
  os.isdir (fs w) (LOCALE_ROOT ++ [lang]) = true →
  Forall (λ meta, ∃ c, Py.getitem meta "code" = Ok c ∧
            Py.eq c (PStr (convert_language_code_format lang true)) = false)
         metas →
  locale_step (PList metas) subtitle_counts lang master_file w
    = (Raise AttributeError, w).
Proof.
  intros Hdir Hno. unfold generate_metadata_locale.
  erewrite bind_step by (unfold os.path_isdir; reflexivity).
  rewrite Hdir. simpl.
  erewrite bind_step; cycle 1.
  { unfold lift, crowdin_meta_for. simpl.
    rewrite (next_matching_unmatched _ _ Hno). reflexivity. }
  pose proof (load_local_meta_spec lang PNone w) as Hl.
  destruct (stored_record (fs w) (meta_file lang)) as [v|].
  - erewrite bind_step by exact Hl.
    destruct subtitle_counts as [| | | | |counts];
      try (apply bind_raise; reflexivity).
    erewrite bind_step by reflexivity.
    destruct (Py.truthy (Py.get_field counts (get_language_name lang))).
    + destruct (Py.get_field counts (get_language_name lang))
        as [| | | | |entry]; try (apply bind_raise; reflexivity).
      erewrite bind_step by reflexivity. reflexivity.
    + erewrite bind_step by reflexivity. reflexivity.
  - apply bind_raise. exact Hl.
Qed.

End MergerFacts.

(** ** The translation fetcher *)

Section FetcherFacts.

Variables LOCALE_ROOT : path.
Variables CROWDIN_PROJECT_ID CROWDIN_PROJECT_KEY : string.
Variable convert_language_code_format : string → bool → string.
Variable requests_get : string → result response.

#[local] Abbreviation download :=
  (download_latest_translations LOCALE_ROOT CROWDIN_PROJECT_ID
     CROWDIN_PROJECT_KEY convert_language_code_format requests_get).
#[local] Abbreviation build :=
  (build_translations requests_get CROWDIN_PROJECT_ID CROWDIN_PROJECT_KEY).
#[local] Abbreviation unpack :=
  (unpack_and_copy LOCALE_ROOT convert_language_code_format).

(** An error status raises in [raise_for_status]. *)
Lemma raise_for_status_error (r : response) (w : world) :
  (400 ≤ status_code r < 600)%Z →
  requests.raise_for_status r w = (Raise (HTTPError (status_code r)), w).
Proof.
  intros [Hlo Hhi]. unfold requests.raise_for_status.
  apply Z.leb_le in Hlo. apply Z.ltb_lt in Hhi. now rewrite Hlo, Hhi.
Qed.

(** After the cleanup the scratch directory is gone. *)
Lemma clean_up_ok (p : path) (name : string) (w w' : world) :
  clean_up (p ++ [name]) w = (Ok (), w') →
  os.exists_ (fs w') (p ++ [name]) = false.
Proof.
  unfold clean_up. intros H.
  apply bind_ok in H as (e & w1 & He & H).
  unfold os.path_exists in He. injection He as <- <-.
  destruct (os.exists_ (fs w) (p ++ [name])) eqn:Hex.
  - unfold shutil.rmtree in H.
    destruct (os.isdir (fs w) (p ++ [name])); [|discriminate].
    injection H as <-. simpl.
    unfold os.exists_. rewrite node_at_snoc.
    rewrite map_lookup_filter.
    destruct (fs w !! (p ++ [name])) as [n|]; simpl; [|reflexivity].
    rewrite option_guard_False; [reflexivity|].
    simpl. now rewrite strip_prefix_refl.
  - injection H as <-. exact Hex.
Qed.

(** C1, as the code has it.  When the download answers with a client or
    server error status, the error is logged and not raised: the stage
    goes on to unpack, copy and clean up with the body of that response,
    and its outcome is theirs. *)
Theorem download_error_status_is_logged
    (project_id project_key language_code : string) (r : response)
    (w w1 : world) :
  build w = (Ok (), w1) →
  requests_get (download_request_url project_id project_key language_code) = Ok r →
  (400 ≤ status_code r < 600)%Z →
  download project_id project_key language_code w =
    (unpack r (LOCALE_ROOT ++ ["tmp"]) ≫= λ _, clean_up (LOCALE_ROOT ++ ["tmp"]))
      (World (fs w1)
         (log w1 ++
            [Info "Attempting to download a zip archive of current translations";
             Error (HTTPError (status_code r))])).
Proof.
  intros Hb Hr Hs. unfold download_latest_translations.
  erewrite bind_step by exact Hb.
  erewrite bind_step by reflexivity.
  fold (download_request_url project_id project_key language_code). rewrite Hr.
  erewrite bind_step by reflexivity.
  erewrite bind_step; cycle 1.
  { unfold try_except_else. rewrite (raise_for_status_error _ _ Hs).
    reflexivity. }
  simpl. rewrite <- app_assoc. reflexivity.
Qed.

(** When unpacking or copying raises, the stage stops there: the cleanup
    is not reached and the world stays as the failing statement left it. *)
Lemma download_raise_skips_clean_up
    (project_id project_key language_code : string) (r : response)
    (w w1 w2 w3 : world) (e : exn) :
  build w = (Ok (), w1) →
  requests_get (download_request_url project_id project_key language_code) = Ok r →
  try_except_else (requests.raise_for_status r) logging.error
    (logging.info "Successfully downloaded zip archive")
    (World (fs w1)
       (log w1 ++
          [Info "Attempting to download a zip archive of current translations"]))
    = (Ok (), w2) →
  unpack r (LOCALE_ROOT ++ ["tmp"]) w2 = (Raise e, w3) →
  download project_id project_key language_code w = (Raise e, w3).
Proof.
  intros Hb Hr Ht Hu. unfold download_latest_translations.
  erewrite bind_step by exact Hb.
  erewrite bind_step by reflexivity.
  fold (download_request_url project_id project_key language_code). rewrite Hr.
  erewrite bind_step by reflexivity.
  erewrite bind_step by exact Ht.
  now apply bind_raise.
Qed.

(** The cleanup is the last statement: after an invocation of
    [download_latest_translations] that returns normally the scratch
    directory does not exist. *)
Theorem download_removes_scratch_on_return
    (project_id project_key language_code : string) (w w' : world) :
  download project_id project_key language_code w = (Ok (), w') →
  os.exists_ (fs w') (LOCALE_ROOT ++ ["tmp"]) = false.
Proof.
  unfold download_latest_translations. intros H.
  apply bind_ok in H as (? & w1 & _ & H).
  apply bind_ok in H as (? & w2 & _ & H).
  apply bind_ok in H as (r & w3 & _ & H).
  apply bind_ok in H as (? & w4 & _ & H).
  apply bind_ok in H as (? & w5 & _ & H).
  now apply clean_up_ok in H.
Qed.

End FetcherFacts.

(** ** Where the stages write *)

Lemma strip_prefix_Some (p q k : path) :
  os.strip_prefix p q = Some k ↔ q = p ++ k.
Proof.
  revert q. induction p as [|a p IH]; simpl; intros q.
  - split; [intros [= ->]; reflexivity | intros ->; reflexivity].
  - destruct q as [|b q]; [split; discriminate|].
    destruct (String.eqb_spec a b) as [->|Hne].
    + rewrite IH. split; [intros ->; reflexivity | intros [= ->]; reflexivity].
    + split; [discriminate | intros [= ? ?]; congruence].
Qed.

Lemma strip_prefix_None (p q : path) :
  os.strip_prefix p q = None ↔ ¬ below p q.
Proof.
  unfold below. split.
  - intros H [k Hk]. apply strip_prefix_Some in Hk. congruence.
  - intros H. destruct (os.strip_prefix p q) as [k|] eqn:E; [|reflexivity].
    apply strip_prefix_Some in E. destruct H. eauto.
Qed.

Lemma below_refl (p : path) : below p p.
Proof. exists []. now rewrite app_nil_r. Qed.

Lemma below_app (p k : path) : below p (p ++ k).
Proof. now exists k. Qed.

Lemma below_trans (p q r : path) : below p q → below q r → below p r.
Proof. intros [k ->] [k' ->]. exists (k ++ k'). now rewrite app_assoc. Qed.

Lemma writes_only_refl (F : path → Prop) (w : world) : writes_only F w w.
Proof. intros q _. now left. Qed.

Lemma writes_only_trans (F : path → Prop) (w1 w2 w3 : world) :
  writes_only F w1 w2 → writes_only F w2 w3 → writes_only F w1 w3.
Proof.
  intros H12 H23 q Hq.
  destruct (H12 q Hq) as [E1|[E1 E1']], (H23 q Hq) as [E2|[E2 E2']].
  - left. congruence.
  - right. split; congruence.
  - right. split; congruence.
  - congruence.
Qed.

Lemma writes_only_fs (F : path → Prop) (w w' : world) :
  fs w' = fs w → writes_only F w w'.
Proof. intros E q _. left. now rewrite E. Qed.

Lemma confined_mono {A} (F G : path → Prop) (c : M A) :
  (∀ q, F q → G q) → confined F c → confined G c.
Proof. intros HFG Hc w q Hq. apply (Hc w). auto. Qed.

Lemma confined_ret {A} (F : path → Prop) (a : A) : confined F (mret a).
Proof. intros w. apply writes_only_refl. Qed.

Lemma confined_lift {A} (F : path → Prop) (r : result A) : confined F (lift r).
Proof. intros w. apply writes_only_refl. Qed.

Lemma confined_bind {A B} (F : path → Prop) (c : M A) (k : A → M B) :
  confined F c → (∀ a, confined F (k a)) → confined F (c ≫= k).
Proof.
  intros Hc Hk w. unfold mbind, M_bind.
  specialize (Hc w). destruct (c w) as [[a|e] w1]; simpl in *.
  - eapply writes_only_trans; [exact Hc|apply Hk].
  - exact Hc.
Qed.

Lemma confined_for_each {A S} (F : path → Prop) (l : list A)
    (body : A → S → M S) (s : S) :
  (∀ x s, x ∈ l → confined F (body x s)) → confined F (for_each l body s).
Proof.
  revert s. induction l as [|x l IH]; intros s Hb; simpl.
  - apply confined_ret.
  - apply confined_bind.
    + apply Hb. left.
    + intros s'. apply IH. intros y s'' Hy. apply Hb. now right.
Qed.

Lemma confined_try_except_else (F : path → Prop) (c : M unit)
    (h : exn → M unit) (k : M unit) :
  confined F c → (∀ e, confined F (h e)) → confined F k →
  confined F (try_except_else c h k).
Proof.
  intros Hc Hh Hk w. unfold try_except_else.
  specialize (Hc w). destruct (c w) as [[a|e] w1]; simpl in *.
  - eapply writes_only_trans; [exact Hc|apply Hk].
  - eapply writes_only_trans; [exact Hc|apply Hh].
Qed.

Lemma confined_info (F : path → Prop) (msg : string) : confined F (logging.info msg).
Proof. intros w. now apply writes_only_fs. Qed.

Lemma confined_error (F : path → Prop) (e : exn) : confined F (logging.error e).
Proof. intros w. now apply writes_only_fs. Qed.

Lemma confined_path_isdir (F : path → Prop) (p : path) : confined F (os.path_isdir p).
Proof. intros w. apply writes_only_refl. Qed.

Lemma confined_path_exists (F : path → Prop) (p : path) : confined F (os.path_exists p).
Proof. intros w. apply writes_only_refl. Qed.

Lemma confined_listdir (F : path → Prop) (p : path) : confined F (os.listdir p).
Proof.
  intros w. unfold os.listdir. destruct (os.isdir (fs w) p); apply writes_only_refl.
Qed.

Lemma confined_read_file (F : path → Prop) (p : path) : confined F (read_file p).
Proof.
  intros w. unfold read_file.
  destruct (os.node_at (fs w) p) as [[|c]|]; apply writes_only_refl.
Qed.

Lemma confined_write_file (F : path → Prop) (p : path) (c : content) :
  F p → confined F (write_file p c).
Proof.
  intros Hp w. unfold write_file.
  destruct (_ && _)%bool; [|apply writes_only_refl].
  intros q Hq. left. simpl. apply lookup_insert_ne. congruence.
Qed.

Lemma node_at_None (t : gmap path node) (p : path) :
  os.node_at t p = None → t !! p = None.
Proof. destruct p; [discriminate|auto]. Qed.

Lemma mkdirs_ok (done rest : path) (t t' : gmap path node) :
  os.mkdirs done rest t = Ok t' →
  ∀ q, t' !! q = t !! q ∨ (t !! q = None ∧ t' !! q = Some Dir).
Proof.
  revert done t. induction rest as [|name rest IH]; simpl; intros done t H q.
  - injection H as <-. now left.
  - destruct (os.node_at t (done ++ [name])) as [[|c]|] eqn:E.
    + eauto.
    + discriminate.
    + apply node_at_None in E.
      destruct (IH _ _ H q) as [E'|[E1 E2]].
      * destruct (decide (q = done ++ [name])) as [->|Hne].
        -- right. now rewrite E', lookup_insert_eq.
        -- left. now rewrite E', lookup_insert_ne.
      * destruct (decide (q = done ++ [name])) as [->|Hne].
        -- now rewrite lookup_insert_eq in E1.
        -- rewrite lookup_insert_ne in E1 by congruence. now right.
Qed.

Lemma confined_mkdir (F : path → Prop) (p : path) : confined F (os.mkdir p).
Proof.
  intros w. unfold os.mkdir.
  destruct (os.isdir (fs w) (os.dirname p)); simpl; [|apply writes_only_refl].
  destruct (os.exists_ (fs w) p) eqn:E; simpl; [apply writes_only_refl|].
  unfold os.exists_ in E.
  destruct (os.node_at (fs w) p) eqn:E'; [discriminate|].
  apply node_at_None in E'.
  intros q _. simpl. destruct (decide (q = p)) as [->|Hne].
  - right. now rewrite lookup_insert_eq.
  - left. now rewrite lookup_insert_ne.
Qed.

Lemma confined_makedirs (F : path → Prop) (p : path) : confined F (os.makedirs p).
Proof.
  intros w. unfold os.makedirs.
  destruct (os.exists_ (fs w) p); [apply writes_only_refl|].
  destruct (os.mkdirs [] p (fs w)) as [t|e] eqn:E; [|apply writes_only_refl].
  intros q _. simpl. exact (mkdirs_ok _ _ _ _ E q).
Qed.

Lemma confined_rmtree (F : path → Prop) (p : path) :
  (∀ q, below p q → F q) → confined F (shutil.rmtree p).
Proof.
  intros Hp w. unfold shutil.rmtree.
  destruct (os.isdir (fs w) p); [|apply writes_only_refl].
  intros q Hq. left. simpl.
  assert (Hn : os.strip_prefix p q = None)
    by (apply strip_prefix_None; intros Hb; auto).
  destruct (fs w !! q) as [n|] eqn:E.
  - apply map_lookup_filter_Some. split; [exact E|exact Hn].
  - apply map_lookup_filter_None. left. exact E.
Qed.

Lemma confined_copy (F : path → Prop) (src dst : path) :
  F dst → F (dst ++ [os.basename src]) → confined F (shutil.copy src dst).
Proof.
  intros Hd Hb. unfold shutil.copy.
  apply confined_bind; [apply confined_path_isdir|].
  intros d. destruct (bool_decide _).
  - intros w. apply writes_only_refl.
  - apply confined_bind; [apply confined_read_file|].
    intros c. apply confined_write_file. now destruct d.
Qed.

Lemma confined_bind_lift {A B} (F : path → Prop) (r : result A) (k : A → M B) :
  (∀ a, r = Ok a → confined F (k a)) → confined F (lift r ≫= k).
Proof.
  intros H w. unfold mbind, M_bind, lift. destruct r as [a|e]; simpl.
  - apply (H a eq_refl).
  - apply writes_only_refl.
Qed.

(** A plain name is taken as it is. *)
Lemma normpath_plain (base name : path) :
  zipfile.plain name = true → os.normpath base name = base ++ name.
Proof.
  revert base. induction name as [|c name IH]; intros base H; simpl.
  - now rewrite app_nil_r.
  - simpl in H. apply andb_prop in H as [Hc H].
    apply Bool.negb_true_iff in Hc.
    apply Bool.orb_false_elim in Hc as [Hc Hdd].
    rewrite Hc, Hdd. rewrite IH by exact H.
    now rewrite <- app_assoc.
Qed.

Lemma member_path_plain (target name : path) :
  zipfile.plain name = true → zipfile.member_path target name = target ++ name.
Proof.
  intros H. unfold zipfile.member_path.
  destruct name as [|c name]; [now apply normpath_plain|].
  destruct c as [|a c]; [discriminate|].
  now apply normpath_plain.
Qed.

Lemma confined_extractall (F : path → Prop)
    (z : list (path * option content)) (target : path) :
  forallb (λ m, zipfile.plain m.1) z = true →
  (∀ q, below target q → F q) → confined F (zipfile.extractall z target).
Proof.
  intros Hz Ht. unfold zipfile.extractall.
  apply confined_for_each. intros m [] Hm. unfold zipfile.extract.
  rewrite member_path_plain
    by (apply (proj1 (forallb_forall _ _) Hz), list_elem_of_In, Hm).
  apply confined_bind; [apply confined_path_exists|]. intros e.
  apply confined_bind.
  { destruct (_ && _)%bool; [apply confined_makedirs|apply confined_ret]. }
  intros _. destruct (m.2) as [c|].
  - apply confined_write_file, Ht, below_app.
  - apply confined_bind; [apply confined_path_isdir|].
    intros d. destruct d; [apply confined_ret|apply confined_mkdir].
Qed.

Lemma confined_ensure_dir (F : path → Prop) (p : path) : confined F (ensure_dir p).
Proof.
  intros w. unfold ensure_dir.
  destruct (os.mkdirs [] p (fs w)) as [t|e] eqn:E; [|apply writes_only_refl].
  intros q _. simpl. exact (mkdirs_ok _ _ _ _ E q).
Qed.

Section FetcherWrites.

Variables LOCALE_ROOT : path.
Variables CROWDIN_PROJECT_ID CROWDIN_PROJECT_KEY : string.
Variable convert_language_code_format : string → bool → string.
Variable requests_get : string → result response.

Lemma confined_build_translations (F : path → Prop) (project_id project_key : string) :
  confined F (build_translations requests_get project_id project_key).
Proof.
  unfold build_translations.
  apply confined_bind; [apply confined_info|]. intros _.
  apply confined_bind; [apply confined_lift|]. intros r.
  apply confined_try_except_else.
  - unfold requests.raise_for_status. destruct (_ && _)%bool.
    + intros w. apply writes_only_refl.
    + apply confined_ret.
  - intros e. apply confined_error.
  - apply confined_ret.
Qed.

Lemma confined_download_latest_translations (F : path → Prop)
    (project_id project_key language_code : string) :
  (∀ r, requests_get (download_request_url project_id project_key language_code)
          = Ok r →
        zipfile.plain_archive (body r) = true) →
  (∀ q, below (LOCALE_ROOT ++ ["tmp"]) q → F q) →
  (∀ lang q,
     below (LOCALE_ROOT ++ [convert_language_code_format lang false;
                            "LC_MESSAGES"; "django.po"]) q ∨
     below (LOCALE_ROOT ++ [convert_language_code_format lang false;
                            "LC_MESSAGES"; "djangojs.po"]) q →
     F q) →
  confined F
    (download_latest_translations LOCALE_ROOT CROWDIN_PROJECT_ID
       CROWDIN_PROJECT_KEY convert_language_code_format requests_get
       project_id project_key language_code).
Proof.
  intros Hplain Htmp Hpo. unfold download_latest_translations.
  apply confined_bind; [apply confined_build_translations|]. intros _.
  apply confined_bind; [apply confined_info|]. intros _.
  apply confined_bind_lift. intros r Hr.
  apply confined_bind.
  { apply confined_try_except_else.
    - unfold requests.raise_for_status. destruct (_ && _)%bool.
      + intros w. apply writes_only_refl.
      + apply confined_ret.
    - intros e. apply confined_error.
    - apply confined_info. }
  intros _. apply confined_bind.
  { unfold unpack_and_copy.
    apply confined_bind_lift. intros z Hz.
    apply confined_bind.
    { apply confined_extractall; [|exact Htmp].
      specialize (Hplain r Hr). unfold zipfile.ZipFile in Hz.
      destruct (body r) as [| |members]; try discriminate.
      injection Hz as <-. exact Hplain. }
    intros _. unfold extract_new_po.
    apply confined_bind; [apply confined_info|]. intros _.
    apply confined_bind; [apply confined_listdir|]. intros langs.
    apply confined_for_each. intros lang [] _.
    apply confined_bind; [apply confined_ensure_dir|]. intros _.
    apply confined_bind; [intros w; apply writes_only_refl|]. intros po_files.
    apply confined_for_each. intros po_file [] _.
    destruct (Py.contains _ _); apply confined_copy; apply (Hpo lang).
    - right. apply below_refl.
    - right. apply below_app.
    - left. apply below_refl.
    - left. apply below_app. }
  intros _. unfold clean_up.
  apply confined_bind; [apply confined_path_exists|]. intros e.
  destruct e; [|apply confined_ret].
  apply confined_rmtree. exact Htmp.
Qed.

(** X1.  When the member names of the archive the download answers with
    have no empty, [.] or [..] component, then however
    [download_latest_translations] ends, by return or by raise, every path
    that is not the locale root or below it is as it was, but for
    directories made where there was nothing: no file outside the locale
    root is written, changed or removed. *)
Theorem download_writes_below_locale_root
    (project_id project_key language_code : string) (w : world) :
  (∀ r, requests_get (download_request_url project_id project_key language_code)
          = Ok r →
        zipfile.plain_archive (body r) = true) →
  writes_only (below LOCALE_ROOT) w
    (download_latest_translations LOCALE_ROOT CROWDIN_PROJECT_ID
       CROWDIN_PROJECT_KEY convert_language_code_format requests_get
       project_id project_key language_code w).2.
Proof.
  intros Hplain.
  apply (confined_download_latest_translations (below LOCALE_ROOT)
           project_id project_key language_code Hplain).
  - intros q. apply below_trans, below_app.
  - intros lang q [H|H]; (eapply below_trans; [apply below_app|exact H]).
Qed.

(** X22.  When the member names of the archive the download answers with
    have no empty, [.] or [..] component, then however
    [download_latest_translations] ends, the only files it has written
    are in the scratch directory or are the catalogs [django.po] and
    [djangojs.po] in [<locale root>/<code>/LC_MESSAGES] (or in them, where
    one is a directory); every other path is as it was, but for
    directories made where there was nothing. *)
Theorem download_writes_only_catalogs
    (project_id project_key language_code : string) (w : world) :
  (∀ r, requests_get (download_request_url project_id project_key language_code)
          = Ok r →
        zipfile.plain_archive (body r) = true) →
  writes_only
    (λ q, below (LOCALE_ROOT ++ ["tmp"]) q ∨
          ∃ lang,
            below (LOCALE_ROOT ++ [convert_language_code_format lang false;
                                   "LC_MESSAGES"; "django.po"]) q ∨
            below (LOCALE_ROOT ++ [convert_language_code_format lang false;
                                   "LC_MESSAGES"; "djangojs.po"]) q)
    w
    (download_latest_translations LOCALE_ROOT CROWDIN_PROJECT_ID
       CROWDIN_PROJECT_KEY convert_language_code_format requests_get
       project_id project_key language_code w).2.
Proof.
  intros Hplain.
  match goal with
  | |- writes_only ?F _ _ =>
      apply (confined_download_latest_translations F
               project_id project_key language_code Hplain)
  end.
  - intros q Hq. now left.
  - intros lang q Hq. right. now exists lang.
Qed.

End FetcherWrites.

Lemma confined_try_except {A} (F : path → Prop) (c : M A) (h : exn → M A) :
  confined F c → (∀ e, confined F (h e)) → confined F (try_except c h).
Proof.
  intros Hc Hh w. unfold try_except.
  specialize (Hc w). destruct (c w) as [[a|e] w1]; simpl in *.
  - exact Hc.
  - eapply writes_only_trans; [exact Hc|apply Hh].
Qed.

Lemma confined_raise_for_status (F : path → Prop) (r : response) :
  confined F (requests.raise_for_status r).
Proof.
  unfold requests.raise_for_status. destruct (_ && _)%bool.
  - intros w. apply writes_only_refl.
  - apply confined_ret.
Qed.

Lemma confined_star (F : path → Prop) (base : path) (suffix : string) :
  confined F (glob.star base suffix).
Proof. intros w. apply writes_only_refl. Qed.

Lemma confined_write (F : path → Prop) (filename arcname : path)
    (members : list (path * option content)) :
  confined F (zipfile.write filename arcname members).
Proof.
  intros w. unfold zipfile.write.
  destruct (os.node_at (fs w) filename); apply writes_only_refl.
Qed.

Lemma confined_close (F : path → Prop) (p : path)
    (members : list (path * option content)) :
  F p → confined F (zipfile.close p members).
Proof.
  intros Hp w q Hq. left. simpl. apply lookup_insert_ne. congruence.
Qed.

(** ** Names *)

Lemma endswith_last (suffix s : string) (c : ascii) :
  Py.endswith suffix s = true →
  String.get (String.length suffix - 1) suffix = Some c →
  String.get (String.length s - 1) s = Some c.
Proof.
  unfold Py.endswith. intros H Hc.
  apply andb_prop in H as [Hle He].
  apply Nat.leb_le in Hle. apply String.eqb_eq in He.
  assert (Hk : (0 < String.length suffix)%nat).
  { destruct suffix; [discriminate|simpl; lia]. }
  rewrite <- He in Hc at 2.
  rewrite substring_correct1 in Hc by lia.
  rewrite <- Hc. f_equal. lia.
Qed.

Lemma length_append (s1 s2 : string) :
  String.length (s1 +:+ s2) = (String.length s1 + String.length s2)%nat.
Proof.
  induction s1 as [|a s1 IH]; [reflexivity|].
  change (S (String.length (s1 +:+ s2)) =
          S (String.length s1 + String.length s2)).
  now f_equal.
Qed.

Lemma append_last (s suffix : string) :
  String.get (String.length (s +:+ suffix) - 1) (s +:+ suffix) =
  match suffix with
  | EmptyString => String.get (String.length s - 1) s
  | _ => String.get (String.length suffix - 1) suffix
  end.
Proof.
  destruct suffix as [|a suffix].
  - replace (s +:+ "") with s; [reflexivity|].
    induction s as [|a s IH]; [reflexivity|].
    change (String a s = String a (s +:+ "")). now f_equal.
  - rewrite (append_correct2 s (String a suffix)
               (String.length (String a suffix) - 1)).
    f_equal. rewrite length_append. simpl. lia.
Qed.

(** A name that a [*.json] or [*.mo] pattern matches is not an archive's. *)
Lemma not_zip_name (suffix name code : string) (c : ascii) :
  String.get (String.length suffix - 1) suffix = Some c →
  c ≠ "p"%char →
  Py.endswith suffix name = true →
  name ≠ code +:+ ".zip".
Proof.
  intros Hc Hp He ->.
  pose proof (endswith_last _ _ _ He Hc) as H.
  rewrite append_last in H. simpl in H. congruence.
Qed.

(** ** Globbing *)

Lemma matches_in_spec (base : path) (suffix : string) (q : path) :
  glob.matches_in base suffix q = true ↔
  ∃ name, q = base ++ [name] ∧ glob.hidden name = false ∧
          Py.endswith suffix name = true.
Proof.
  unfold glob.matches_in. split.
  - destruct (os.strip_prefix base q) as [[|name [|]]|] eqn:E; try discriminate.
    apply strip_prefix_Some in E. intros H.
    apply andb_prop in H as [Hh He]. apply Bool.negb_true_iff in Hh.
    eauto.
  - intros (name & -> & Hh & He).
    rewrite (proj2 (strip_prefix_Some base (base ++ [name]) [name]) eq_refl).
    now rewrite Hh, He.
Qed.

Lemma star_spec (base : path) (suffix : string) (w : world) (l : list path) (w' : world) :
  glob.star base suffix w = (Ok l, w') →
  w' = w ∧
  ∀ q, q ∈ l ↔ ∃ name n, q = base ++ [name] ∧ glob.hidden name = false ∧
                         Py.endswith suffix name = true ∧ fs w !! q = Some n.
Proof.
  unfold glob.star. intros [= <- <-]. split; [reflexivity|].
  intros q. rewrite list_elem_of_In, filter_In, <- list_elem_of_In.
  rewrite list_elem_of_fmap, matches_in_spec. split.
  - intros [([q' n] & Hq & Hin) (name & -> & Hh & He)].
    apply elem_of_map_to_list in Hin. simpl in Hq. subst q'. eauto 10.
  - intros (name & n & -> & Hh & He & Hn). split; [|eauto].
    exists (base ++ [name], n). split; [reflexivity|].
    now apply elem_of_map_to_list.
Qed.

Lemma for_each_write (arc : path → path) (l : list path)
    (ms ms' : list (path * option content)) (w w' : world) :
  for_each l (λ f, zipfile.write f (arc f)) ms w = (Ok ms', w') →
  w' = w ∧
  ∃ added, ms' = ms ++ added ∧
    Forall2 (λ f m, ∃ n, os.node_at (fs w) f = Some n ∧
                         m = (arc f, zipfile.stored n)) l added.
Proof.
  revert ms. induction l as [|f l IH]; simpl; intros ms H.
  - injection H as <- <-. split; [reflexivity|].
    exists []. rewrite app_nil_r. split; [reflexivity|constructor].
  - apply bind_ok in H as (ms1 & w1 & Hw & H).
    unfold zipfile.write in Hw.
    destruct (os.node_at (fs w) f) as [n|] eqn:En; [|discriminate].
    injection Hw as <- <-.
    apply IH in H as (-> & added & -> & Hall).
    split; [reflexivity|].
    exists ((arc f, zipfile.stored n) :: added).
    rewrite <- app_assoc. split; [reflexivity|].
    constructor; eauto.
Qed.

Section MergerWrites.

Variable VERSION : string.
Variable version_diff : pyval → pyval → Z.
Variables LOCALE_ROOT LANGUAGE_PACK_ROOT SUBTITLES_DATA_ROOT : path.
Variables CROWDIN_PROJECT_ID CROWDIN_PROJECT_KEY : string.
Variable convert_language_code_format : string → bool → string.
Variable get_language_name : string → string.
Variable requests_get : string → result response.

Lemma confined_generate_metadata :
  confined
    (λ q, q = LANGUAGE_PACK_ROOT ++ [LANGUAGE_PACK_AVAILABILITY_FILENAME] ∨
          ∃ lang, q = metadata_path LOCALE_ROOT lang)
    (generate_metadata VERSION version_diff LOCALE_ROOT LANGUAGE_PACK_ROOT
       SUBTITLES_DATA_ROOT CROWDIN_PROJECT_ID CROWDIN_PROJECT_KEY
       convert_language_code_format get_language_name requests_get).
Proof.
  unfold generate_metadata.
  apply confined_bind; [apply confined_info|]. intros _.
  apply confined_bind.
  { unfold get_crowdin_meta.
    apply confined_bind; [apply confined_lift|]. intros r.
    apply confined_bind; [apply confined_raise_for_status|]. intros _.
    apply confined_lift. }
  intros crowdin_meta_dict.
  apply confined_bind; [apply confined_read_file|]. intros c.
  apply confined_bind; [apply confined_lift|]. intros subtitle_counts.
  apply confined_bind; [apply confined_listdir|]. intros langs.
  apply confined_bind.
  { apply confined_for_each. intros lang master_file _.
    unfold generate_metadata_locale.
    apply confined_bind; [apply confined_path_isdir|]. intros d.
    destruct d; simpl; [|apply confined_ret].
    apply confined_bind; [apply confined_lift|]. intros crowdin_meta.
    apply confined_bind.
    { unfold load_local_meta. apply confined_try_except.
      - apply confined_bind; [apply confined_read_file|]. intros ?.
        apply confined_lift.
      - intros _. apply confined_lift. }
    intros local_meta.
    apply confined_bind; [apply confined_lift|]. intros entry.
    apply confined_bind; [apply confined_lift|]. intros srt_count.
    apply confined_bind; [apply confined_lift|]. intros updated.
    apply confined_bind; [apply confined_lift|]. intros merged.
    apply confined_bind; [|intros _; apply confined_ret].
    apply confined_write_file. right. now exists lang. }
  intros master_file.
  apply confined_bind; [apply confined_ensure_dir|]. intros _.
  apply confined_bind; [|intros _; apply confined_info].
  apply confined_write_file. now left.
Qed.

(** X2.  However [generate_metadata] ends, the only files it has written
    are the metadata files [<locale root>/<lang>/<lang>_metadata.json] and
    the availability index; every other path is as it was, but for
    directories made where there was nothing. *)
Theorem generate_metadata_writes_only_records (w : world) :
  writes_only
    (λ q, q = LANGUAGE_PACK_ROOT ++ [LANGUAGE_PACK_AVAILABILITY_FILENAME] ∨
          ∃ lang, q = metadata_path LOCALE_ROOT lang)
    w
    (generate_metadata VERSION version_diff LOCALE_ROOT LANGUAGE_PACK_ROOT
       SUBTITLES_DATA_ROOT CROWDIN_PROJECT_ID CROWDIN_PROJECT_KEY
       convert_language_code_format get_language_name requests_get w).2.
Proof. exact (confined_generate_metadata w). Qed.

End MergerWrites.

Section Packs.

Variable VERSION : string.
Variables LOCALE_ROOT LANGUAGE_PACK_ROOT : path.
Variable convert_language_code_format : string → bool → string.

#[local] Abbreviation zip_one :=
  (zip_language_pack VERSION LOCALE_ROOT LANGUAGE_PACK_ROOT
     convert_language_code_format).
#[local] Abbreviation pack_path := (λ lang : string,
  LANGUAGE_PACK_ROOT ++ [VERSION; convert_language_code_format lang false +:+ ".zip"]).

Lemma confined_zip_language_pack (lang : string) :
  confined (λ q, ∃ lang, q = pack_path lang) (zip_one lang).
Proof.
  unfold zip_language_pack.
  apply confined_bind; [apply confined_path_isdir|]. intros d.
  destruct d; simpl; [|apply confined_ret].
  apply confined_bind; [apply confined_ensure_dir|]. intros _.
  apply confined_bind.
  { apply confined_write_file. exists lang. now rewrite <- app_assoc. }
  intros _.
  apply confined_bind; [apply confined_star|]. intros metadata_files.
  apply confined_bind.
  { apply confined_for_each. intros f ms _. apply confined_write. }
  intros members.
  apply confined_bind; [apply confined_star|]. intros mo_files.
  apply confined_bind.
  { apply confined_for_each. intros f ms _. apply confined_write. }
  intros members'.
  apply confined_close. exists lang. now rewrite <- app_assoc.
Qed.

Lemma confined_zip_language_packs :
  confined (λ q, ∃ lang, q = pack_path lang)
    (zip_language_packs VERSION LOCALE_ROOT LANGUAGE_PACK_ROOT
       convert_language_code_format).
Proof.
  unfold zip_language_packs.
  apply confined_bind; [apply confined_info|]. intros _.
  apply confined_bind; [apply confined_ensure_dir|]. intros _.
  apply confined_bind; [apply confined_listdir|]. intros langs.
  apply confined_bind; [|intros _; apply confined_info].
  apply confined_for_each. intros lang [] _.
  apply confined_zip_language_pack.
Qed.

(** X3.  However [zip_language_packs] ends, the only files it has
    written are archives [<pack root>/<version>/<code>.zip]; every other
    path is as it was, but for directories made where there was
    nothing. *)
Theorem zip_language_packs_writes_only_archives (w : world) :
  writes_only (λ q, ∃ lang, q = pack_path lang) w
    (zip_language_packs VERSION LOCALE_ROOT LANGUAGE_PACK_ROOT
       convert_language_code_format w).2.
Proof. exact (confined_zip_language_packs w). Qed.

(** What a completed step of the loop of [zip_language_packs] did. *)
Lemma zip_language_pack_ok (lang : string) (w w' : world) :
  os.isdir (fs w) (LOCALE_ROOT ++ [lang]) = true →
  zip_one lang w = (Ok (), w') →
  ∃ t l1 l2 added1 added2,
    fs w' = <[pack_path lang := File (ZipArchive (added1 ++ added2))]> t ∧
    (∀ q, q ∈ l1 ↔ ∃ name n, q = (LOCALE_ROOT ++ [lang]) ++ [name] ∧
            glob.hidden name = false ∧ Py.endswith ".json" name = true ∧
            t !! q = Some n) ∧
    (∀ q, q ∈ l2 ↔ ∃ name n, q = ((LOCALE_ROOT ++ [lang]) ++ ["LC_MESSAGES"]) ++ [name] ∧
            glob.hidden name = false ∧ Py.endswith ".mo" name = true ∧
            t !! q = Some n) ∧
    Forall2 (λ f m, ∃ n, os.node_at t f = Some n ∧
                         m = ([os.basename f], zipfile.stored n)) l1 added1 ∧
    Forall2 (λ f m, ∃ n, os.node_at t f = Some n ∧
                         m = (["LC_MESSAGES"; os.basename f], zipfile.stored n))
            l2 added2.
Proof.
  intros Hdir H. unfold zip_language_pack in H.
  apply bind_ok in H as (d & w0 & Hd & H).
  unfold os.path_isdir in Hd. injection Hd as <- <-. rewrite Hdir in H.
  simpl in H.
  apply bind_ok in H as ([] & w1 & _ & H).
  apply bind_ok in H as ([] & w2 & _ & H).
  apply bind_ok in H as (l1 & w3 & Hg1 & H).
  apply star_spec in Hg1 as [-> Hl1].
  apply bind_ok in H as (ms1 & w3 & Hw1 & H).
  apply (for_each_write (λ f, [os.basename f])) in Hw1 as (-> & added1 & -> & Ha1).
  apply bind_ok in H as (l2 & w3 & Hg2 & H).
  apply star_spec in Hg2 as [-> Hl2].
  apply bind_ok in H as (ms2 & w3 & Hw2 & H).
  apply (for_each_write (λ f, ["LC_MESSAGES"; os.basename f])) in Hw2
    as (-> & added2 & -> & Ha2).
  unfold zipfile.close in H. injection H as <-.
  exists (fs w2), l1, l2, added1, added2. simpl.
  rewrite <- app_assoc. simpl.
  split; [reflexivity|]. split; [exact Hl1|]. split; [exact Hl2|].
  split; assumption.
Qed.

End Packs.

(** ** The packs *)

Lemma Forall2_elem_l {A B} (P : A → B → Prop) (l : list A) (k : list B) (x : A) :
  Forall2 P l k → x ∈ l → ∃ y, y ∈ k ∧ P x y.
Proof.
  induction 1 as [|a b l k Hab _ IH]; intros Hx.
  - now apply elem_of_nil in Hx.
  - apply elem_of_cons in Hx as [->|Hx].
    + exists b. split; [left|exact Hab].
    + destruct (IH Hx) as (y & Hy & HP). exists y. split; [now right|exact HP].
Qed.

Lemma Forall2_elem_r {A B} (P : A → B → Prop) (l : list A) (k : list B) (y : B) :
  Forall2 P l k → y ∈ k → ∃ x, x ∈ l ∧ P x y.
Proof.
  induction 1 as [|a b l k Hab _ IH]; intros Hy.
  - now apply elem_of_nil in Hy.
  - apply elem_of_cons in Hy as [->|Hy].
    + exists a. split; [left|exact Hab].
    + destruct (IH Hy) as (x & Hx & HP). exists x. split; [now right|exact HP].
Qed.

Lemma basename_snoc (p : path) (name : string) : os.basename (p ++ [name]) = name.
Proof. unfold os.basename. apply last_last. Qed.

Lemma lookup_insert_other_name (t : gmap path node) (p p' : path)
    (name name' : string) (n : node) :
  name ≠ name' →
  (<[p' ++ [name'] := n]> t) !! (p ++ [name]) = t !! (p ++ [name]).
Proof.
  intros Hne. apply lookup_insert_ne. intros E.
  apply app_inj_tail in E as [_ E]. congruence.
Qed.

Section PackContents.

Variable VERSION : string.
Variables LOCALE_ROOT LANGUAGE_PACK_ROOT : path.
Variable convert_language_code_format : string → bool → string.

#[local] Abbreviation zip_one :=
  (zip_language_pack VERSION LOCALE_ROOT LANGUAGE_PACK_ROOT
     convert_language_code_format).
#[local] Abbreviation pack_path := (λ lang : string,
  LANGUAGE_PACK_ROOT ++ [VERSION; convert_language_code_format lang false +:+ ".zip"]).

(** X4.  After a completed step of [zip_language_packs] for a locale
    directory whose path has no pattern character ([*], [?], [[]) in any
    component, the archive of that locale exists and holds exactly: under
    its base name, every entry of the locale directory whose name ends in
    [.json] and does not start with a dot; and under [LC_MESSAGES/<name>],
    every such entry of its [LC_MESSAGES] directory ending in [.mo]; each
    with the contents it has on disk.  (With a pattern character the
    directory part of the patterns of lines 238 and 240 is a pattern
    itself, and the files of other directories are packed.) *)
Theorem zip_language_pack_contents (lang : string) (w w' : world) :
  glob.literal (LOCALE_ROOT ++ [lang]) = true →
  os.isdir (fs w) (LOCALE_ROOT ++ [lang]) = true →
  zip_one lang w = (Ok (), w') →
  ∃ members,
    fs w' !! pack_path lang = Some (File (ZipArchive members)) ∧
    (∀ name n, glob.hidden name = false → Py.endswith ".json" name = true →
       fs w' !! (LOCALE_ROOT ++ [lang; name]) = Some n →
       ([name], zipfile.stored n) ∈ members) ∧
    (∀ name n, glob.hidden name = false → Py.endswith ".mo" name = true →
       fs w' !! (LOCALE_ROOT ++ [lang; "LC_MESSAGES"; name]) = Some n →
       (["LC_MESSAGES"; name], zipfile.stored n) ∈ members) ∧
    (∀ m, m ∈ members →
       ∃ name n, m.2 = zipfile.stored n ∧ glob.hidden name = false ∧
         ((m.1 = [name] ∧ Py.endswith ".json" name = true ∧
           fs w' !! (LOCALE_ROOT ++ [lang; name]) = Some n) ∨
          (m.1 = ["LC_MESSAGES"; name] ∧ Py.endswith ".mo" name = true ∧
           fs w' !! (LOCALE_ROOT ++ [lang; "LC_MESSAGES"; name]) = Some n))).
Proof.
  intros _ Hdir H.
  destruct (zip_language_pack_ok _ _ _ _ _ _ _ Hdir H)
    as (t & l1 & l2 & added1 & added2 & Hfs & Hl1 & Hl2 & Ha1 & Ha2).
  assert (Ez : LANGUAGE_PACK_ROOT
                 ++ [VERSION; convert_language_code_format lang false +:+ ".zip"]
               = (LANGUAGE_PACK_ROOT ++ [VERSION])
                 ++ [convert_language_code_format lang false +:+ ".zip"])
    by now rewrite <- app_assoc.
  assert (Hjson : ∀ name, Py.endswith ".json" name = true →
            fs w' !! ((LOCALE_ROOT ++ [lang]) ++ [name])
              = t !! ((LOCALE_ROOT ++ [lang]) ++ [name])).
  { intros name He. rewrite Hfs.
    rewrite Ez.
    apply lookup_insert_other_name.
    now apply (not_zip_name ".json" name _ "n"%char). }
  assert (Hmo : ∀ name, Py.endswith ".mo" name = true →
            fs w' !! (((LOCALE_ROOT ++ [lang]) ++ ["LC_MESSAGES"]) ++ [name])
              = t !! (((LOCALE_ROOT ++ [lang]) ++ ["LC_MESSAGES"]) ++ [name])).
  { intros name He. rewrite Hfs.
    rewrite Ez.
    apply lookup_insert_other_name.
    now apply (not_zip_name ".mo" name _ "o"%char). }
  assert (E1 : ∀ name, LOCALE_ROOT ++ [lang; name]
                       = (LOCALE_ROOT ++ [lang]) ++ [name])
    by (intros; now rewrite <- app_assoc).
  assert (E2 : ∀ name, LOCALE_ROOT ++ [lang; "LC_MESSAGES"; name]
                       = ((LOCALE_ROOT ++ [lang]) ++ ["LC_MESSAGES"]) ++ [name])
    by (intros; now rewrite <- !app_assoc).
  exists (added1 ++ added2).
  split; [rewrite Hfs; apply lookup_insert_eq|]. split; [|split].
  - intros name n Hh He Hn. rewrite E1, (Hjson _ He) in Hn.
    apply elem_of_app. left.
    destruct (Forall2_elem_l _ _ _ ((LOCALE_ROOT ++ [lang]) ++ [name]) Ha1)
      as (m & Hm & n' & Hn' & ->).
    { apply Hl1. eauto 10. }
    rewrite node_at_snoc, Hn in Hn'. injection Hn' as <-.
    now rewrite basename_snoc in Hm.
  - intros name n Hh He Hn. rewrite E2, (Hmo _ He) in Hn.
    apply elem_of_app. right.
    destruct (Forall2_elem_l _ _ _
                (((LOCALE_ROOT ++ [lang]) ++ ["LC_MESSAGES"]) ++ [name]) Ha2)
      as (m & Hm & n' & Hn' & ->).
    { apply Hl2. eauto 10. }
    rewrite node_at_snoc, Hn in Hn'. injection Hn' as <-.
    now rewrite basename_snoc in Hm.
  - intros m Hm. apply elem_of_app in Hm as [Hm|Hm].
    + destruct (Forall2_elem_r _ _ _ _ Ha1 Hm) as (f & Hf & n & Hn & ->).
      apply Hl1 in Hf as (name & n' & -> & Hh & He & Hn').
      rewrite node_at_snoc, Hn' in Hn. injection Hn as <-.
      exists name, n'. simpl. rewrite basename_snoc.
      split; [reflexivity|]. split; [exact Hh|]. left.
      split; [reflexivity|]. split; [exact He|].
      now rewrite E1, (Hjson _ He).
    + destruct (Forall2_elem_r _ _ _ _ Ha2 Hm) as (f & Hf & n & Hn & ->).
      apply Hl2 in Hf as (name & n' & -> & Hh & He & Hn').
      rewrite node_at_snoc, Hn' in Hn. injection Hn as <-.
      exists name, n'. simpl. rewrite basename_snoc.
      split; [reflexivity|]. split; [exact Hh|]. right.
      split; [reflexivity|]. split; [exact He|].
      now rewrite E2, (Hmo _ He).
Qed.

End PackContents.

(** ** The merger, step by step *)

Section MergerSteps.

Variable VERSION : string.
Variable version_diff : pyval → pyval → Z.
Variables LOCALE_ROOT : path.
Variable convert_language_code_format : string → bool → string.
Variable get_language_name : string → string.

#[local] Abbreviation locale_step :=
  (generate_metadata_locale VERSION version_diff LOCALE_ROOT
     convert_language_code_format get_language_name).
#[local] Abbreviation meta_file := (metadata_path LOCALE_ROOT).
#[local] Abbreviation remote_entry :=
  (crowdin_meta_for convert_language_code_format).
#[local] Abbreviation local_record := (load_local_meta LOCALE_ROOT).
#[local] Abbreviation updates := (updated_metadata VERSION version_diff).

(** The values the dict display gives to the keys the remote entry does
    not decide. *)
Lemma updated_metadata_fields (local_meta crowdin_meta srt_count : pyval)
    (u : gmap string pyval) :
  updates local_meta crowdin_meta srt_count = Ok u →
  u !! "software_version" = Some (PStr VERSION) ∧
  u !! "subtitle_count" = Some srt_count.
Proof.
  unfold updated_metadata. intros H.
  apply result_bind_ok in H as (? & _ & H).
  apply result_bind_ok in H as (percent & _ & H).
  apply result_bind_ok in H as (? & _ & H).
  apply result_bind_ok in H as (phrases & _ & H).
  apply result_bind_ok in H as (? & _ & H).
  apply result_bind_ok in H as (approved & _ & H).
  apply result_bind_ok in H as (crowdin_version & Hv & [= <-]).
  split.
  - now rewrite !lookup_insert_ne, lookup_insert_eq by discriminate.
  - now rewrite !lookup_insert_ne, lookup_insert_eq by discriminate.
Qed.

(** A completed step, with the subtitle count it used and the test its
    write passed. *)
Lemma generate_metadata_locale_run (crowdin_meta_dict subtitle_counts : pyval)
    (lang : string) (master_file master_file' : list pyval) (w w' : world) :
  os.isdir (fs w) (LOCALE_ROOT ++ [lang]) = true →
  locale_step crowdin_meta_dict subtitle_counts lang master_file w
    = (Ok master_file', w') →
  ∃ crowdin_meta prior entry srt_count u,
    local_record lang crowdin_meta w = (Ok (PDict prior), w) ∧
    Py.get subtitle_counts (get_language_name lang) = Ok entry ∧
    (if Py.truthy entry then Py.get entry "count" else Ok (PInt 0))
      = Ok srt_count ∧
    updates (PDict prior) crowdin_meta srt_count = Ok u ∧
    os.isdir (fs w) (meta_file lang) = false ∧
    fs w' = <[meta_file lang := File (JsonDoc (PDict (u ∪ prior)))]> (fs w) ∧
    log w' = log w ∧
    master_file' = master_file ++ [PDict (u ∪ prior)].
Proof.
  intros Hdir H. unfold generate_metadata_locale in H.
  apply bind_ok in H as (d & w0 & Hd & H).
  unfold os.path_isdir in Hd. injection Hd as <- <-. rewrite Hdir in H.
  simpl in H.
  apply bind_ok in H as (crowdin_meta & w1 & Hc & H).
  apply lift_ok in Hc as [Hc ->].
  apply bind_ok in H as (local_meta & w1 & Hl & H).
  pose proof (load_local_meta_spec LOCALE_ROOT lang crowdin_meta w) as Hs.
  rewrite Hl in Hs. injection Hs as Hs ->.
  apply bind_ok in H as (entry & w1 & He & H).
  apply lift_ok in He as [He ->].
  apply bind_ok in H as (srt_count & w1 & Hn & H).
  apply lift_ok in Hn as [Hn ->].
  apply bind_ok in H as (u & w1 & Hu & H).
  apply lift_ok in Hu as [Hu ->].
  apply bind_ok in H as (merged & w1 & Hm & H).
  apply lift_ok in Hm as [Hm ->].
  apply bind_ok in H as ([] & w1 & Hw & H).
  injection H as <- <-.
  destruct local_meta as [| | | | |prior]; try discriminate.
  injection Hm as <-.
  unfold write_file in Hw.
  destruct (os.isdir (fs w) (os.dirname (meta_file lang))); [|discriminate].
  destruct (os.isdir (fs w) (meta_file lang)) eqn:Hnd; [discriminate|].
  injection Hw as <-.
  exists crowdin_meta, prior, entry, srt_count, u.
  repeat split; try assumption; try reflexivity.
Qed.

(** A step that raises has written nothing. *)
Lemma generate_metadata_locale_raise (crowdin_meta_dict subtitle_counts : pyval)
    (lang : string) (master_file : list pyval) (w w' : world) (e : exn) :
  locale_step crowdin_meta_dict subtitle_counts lang master_file w
    = (Raise e, w') →
  w' = w.
Proof.
  unfold generate_metadata_locale, mbind, M_bind, os.path_isdir.
  destruct (os.isdir (fs w) (LOCALE_ROOT ++ [lang])); simpl; [|discriminate].
  destruct (crowdin_meta_for _ _ _) as [crowdin_meta|]; [|congruence].
  rewrite (load_local_meta_spec LOCALE_ROOT lang crowdin_meta w).
  destruct (match stored_record _ _ with Some v => Ok v | None => _ end)
    as [local_meta|]; [|congruence].
  destruct (Py.get subtitle_counts _) as [entry|]; [|congruence].
  destruct (if Py.truthy entry then _ else _) as [srt_count|]; [|congruence].
  destruct (updated_metadata _ _ _ _ _) as [u|]; [|congruence].
  destruct (Py.update local_meta u) as [merged|]; [|congruence].
  unfold write_file.
  destruct (_ && _)%bool; [discriminate|congruence].
Qed.

(** X5.  A step of the loop of [generate_metadata] either leaves the
    world as it was (it skipped an entry that is no directory, or it
    raised), or it returned and has written exactly the metadata file of
    its locale, with the record it appended to the index, and nothing in
    the log. *)
Theorem generate_metadata_locale_all_or_nothing
    (crowdin_meta_dict subtitle_counts : pyval) (lang : string)
    (master_file : list pyval) (w : world) :
  let out := locale_step crowdin_meta_dict subtitle_counts lang master_file w in
  out.2 = w ∧ (out.1 = Ok master_file ∨ ∃ e, out.1 = Raise e) ∨
  ∃ merged,
    out.1 = Ok (master_file ++ [merged]) ∧
    fs out.2 = <[meta_file lang := File (JsonDoc merged)]> (fs w) ∧
    log out.2 = log w.
Proof.
  simpl.
  destruct (locale_step crowdin_meta_dict subtitle_counts lang master_file w)
    as [[master_file'|e] w'] eqn:H; simpl.
  - destruct (os.isdir (fs w) (LOCALE_ROOT ++ [lang])) eqn:Hdir.
    + right.
      destruct (generate_metadata_locale_ok _ _ _ _ _ _ _ _ _ _ _ _ Hdir H)
        as (? & prior & ? & u & _ & _ & _ & Hfs & Hlog & ->).
      eauto.
    + left. unfold generate_metadata_locale, mbind, M_bind, os.path_isdir in H.
      rewrite Hdir in H. injection H as <- <-. auto.
  - left. apply generate_metadata_locale_raise in H as ->. eauto.
Qed.

(** X6.  When the metadata file of a locale directory holds a JSON
    document that is not an object, the step raises and writes nothing:
    the document loads, so no fresh record replaces it. *)
Theorem generate_metadata_locale_not_an_object
    (crowdin_meta_dict subtitle_counts : pyval) (lang : string)
    (master_file : list pyval) (w : world) (v : pyval) :
  os.isdir (fs w) (LOCALE_ROOT ++ [lang]) = true →
  stored_record (fs w) (meta_file lang) = Some v →
  (∀ d, v ≠ PDict d) →
  ∃ e, locale_step crowdin_meta_dict subtitle_counts lang master_file w
       = (Raise e, w).
Proof.
  intros Hdir Hv Hnd.
  destruct (locale_step crowdin_meta_dict subtitle_counts lang master_file w)
    as [[master_file'|e] w'] eqn:H.
  - destruct (generate_metadata_locale_ok _ _ _ _ _ _ _ _ _ _ _ _ Hdir H)
      as (crowdin_meta & prior & ? & ? & _ & Hl & _).
    rewrite load_local_meta_spec, Hv in Hl. injection Hl as ->.
    now destruct (Hnd prior).
  - exists e. now apply generate_metadata_locale_raise in H as ->.
Qed.

(** X7.  When the subtitle counts have no entry, or a false one, for the
    name of the language, the record a completed step stores has
    [subtitle_count] 0. *)
Theorem generate_metadata_locale_no_subtitles
    (crowdin_meta_dict : pyval) (counts : gmap string pyval) (lang : string)
    (master_file master_file' : list pyval) (w w' : world) :
  os.isdir (fs w) (LOCALE_ROOT ++ [lang]) = true →
  Py.truthy (Py.get_field counts (get_language_name lang)) = false →
  locale_step crowdin_meta_dict (PDict counts) lang master_file w
    = (Ok master_file', w') →
  ∃ merged,
    stored_record (fs w') (meta_file lang) = Some (PDict merged) ∧
    merged !! "subtitle_count" = Some (PInt 0).
Proof.
  intros Hdir Hf H.
  destruct (generate_metadata_locale_run _ _ _ _ _ _ _ Hdir H)
    as (crowdin_meta & prior & entry & srt_count & u
        & _ & He & Hs & Hu & _ & Hfs & _ & _).
  injection He as <-. rewrite Hf in Hs. injection Hs as <-.
  apply updated_metadata_fields in Hu as [_ Hu].
  exists (u ∪ prior).
  split; [rewrite Hfs; apply stored_record_insert|].
  now apply lookup_union_Some_l.
Qed.

(** X8.  When the stored record of a locale has no [total_translated]
    (or there is no stored record), the record a completed step stores has
    none either and has [crowdin_version] 1, whatever the remote status
    is: records written by [generate_metadata] alone stay at version 1. *)
Theorem generate_metadata_locale_stays_at_one
    (crowdin_meta_dict subtitle_counts : pyval) (lang : string)
    (master_file master_file' : list pyval) (w w' : world) :
  os.isdir (fs w) (LOCALE_ROOT ++ [lang]) = true →
  match stored_record (fs w) (meta_file lang) with
  | Some (PDict old) => old !! "total_translated" = None
  | _ => True
  end →
  locale_step crowdin_meta_dict subtitle_counts lang master_file w
    = (Ok master_file', w') →
  ∃ new,
    stored_record (fs w') (meta_file lang) = Some (PDict new) ∧
    new !! "total_translated" = None ∧
    new !! "crowdin_version" = Some (PInt 1).
Proof.
  intros Hdir Hold H.
  destruct (generate_metadata_locale_ok _ _ _ _ _ _ _ _ _ _ _ _ Hdir H)
    as (crowdin_meta & prior & srt_count & u & _ & Hl & Hu & Hfs & _ & _).
  assert (Hp : prior !! "total_translated" = None).
  { rewrite load_local_meta_spec in Hl.
    destruct (stored_record (fs w) (meta_file lang)) as [v|].
    - injection Hl as ->. exact Hold.
    - injection Hl as Hl. apply fresh_meta_dom in Hl as (d & [= <-] & Hd).
      apply not_elem_of_dom. rewrite Hd. set_solver. }
  apply updated_metadata_ok in Hu as (Hdom & next & Hnext & Hcv).
  rewrite increment_crowdin_version_dict in Hnext.
  unfold Py.get_field in Hnext at 1. rewrite Hp in Hnext.
  injection Hnext as <-.
  exists (u ∪ prior).
  split; [rewrite Hfs; apply stored_record_insert|]. split.
  - apply lookup_union_None. split; [|exact Hp].
    apply not_elem_of_dom. rewrite Hdom. unfold updated_keys. set_solver.
  - now apply lookup_union_Some_l.
Qed.

Lemma increment_crowdin_version_positive (d : gmap string pyval)
    (crowdin_meta next : pyval) :
  match d !! "crowdin_version" with
  | Some (PInt n) => (0 ≤ n)%Z
  | Some _ => False
  | None => True
  end →
  increment_crowdin_version VERSION version_diff (PDict d) crowdin_meta = Ok next →
  ∃ n, next = PInt n ∧ (1 ≤ n)%Z.
Proof.
  intros Hd. rewrite increment_crowdin_version_dict.
  destruct (_ || _)%bool.
  { intros [= <-]. exists 1. split; [reflexivity|lia]. }
  destruct (Py.get crowdin_meta "approved") as [approved|]; simpl; [|discriminate].
  unfold Py.get_field at 2 3.
  destruct (d !! "crowdin_version") as [[| |n| | |]|]; try contradiction; simpl.
  - destruct (Py.eq _ approved); intros [= <-].
    + unfold Py.or. simpl. destruct (Z.eqb_spec n 0) as [->|Hn]; simpl.
      * exists 1. split; [reflexivity|lia].
      * exists n. split; [reflexivity|lia].
    + exists (n + 1). split; [reflexivity|lia].
  - destruct (Py.eq _ approved); [|discriminate].
    intros [= <-]. exists 1. split; [reflexivity|lia].
Qed.

(** X9.  When the stored [crowdin_version] of a locale is absent or an
    integer that is not negative, the [crowdin_version] a completed step
    stores is an integer that is at least 1. *)
Theorem generate_metadata_locale_version_positive
    (crowdin_meta_dict subtitle_counts : pyval) (lang : string)
    (master_file master_file' : list pyval) (w w' : world) :
  os.isdir (fs w) (LOCALE_ROOT ++ [lang]) = true →
  match stored_record (fs w) (meta_file lang) with
  | Some (PDict old) =>
      match old !! "crowdin_version" with
      | Some (PInt n) => (0 ≤ n)%Z
      | Some _ => False
      | None => True
      end
  | _ => True
  end →
  locale_step crowdin_meta_dict subtitle_counts lang master_file w
    = (Ok master_file', w') →
  ∃ new n,
    stored_record (fs w') (meta_file lang) = Some (PDict new) ∧
    new !! "crowdin_version" = Some (PInt n) ∧ (1 ≤ n)%Z.
Proof.
  intros Hdir Hold H.
  destruct (generate_metadata_locale_ok _ _ _ _ _ _ _ _ _ _ _ _ Hdir H)
    as (crowdin_meta & prior & srt_count & u & _ & Hl & Hu & Hfs & _ & _).
  assert (Hp : match prior !! "crowdin_version" with
               | Some (PInt n) => (0 ≤ n)%Z
               | Some _ => False
               | None => True
               end).
  { rewrite load_local_meta_spec in Hl.
    destruct (stored_record (fs w) (meta_file lang)) as [v|].
    - injection Hl as ->. exact Hold.
    - injection Hl as Hl. apply fresh_meta_dom in Hl as (d & [= <-] & Hd).
      assert (Hn : prior !! "crowdin_version" = None)
        by (apply not_elem_of_dom; rewrite Hd; set_solver).
      now rewrite Hn. }
  apply updated_metadata_ok in Hu as (_ & next & Hnext & Hcv).
  destruct (increment_crowdin_version_positive _ _ _ Hp Hnext) as (n & -> & Hn).
  exists (u ∪ prior), n.
  split; [rewrite Hfs; apply stored_record_insert|].
  split; [now apply lookup_union_Some_l|exact Hn].
Qed.

(** The records of the index. *)
#[local] Abbreviation index_record := (λ v : pyval,
  ∃ d, v = PDict d ∧ updated_keys ⊆ dom d ∧
       d !! "software_version" = Some (PStr VERSION)).

Lemma isdir_insert_file (t : gmap path node) (p q : path) (c : content) :
  os.isdir t p = false →
  os.isdir (<[p := File c]> t) q = os.isdir t q.
Proof.
  unfold os.isdir, os.node_at. intros Hp.
  destruct q as [|a q]; [reflexivity|].
  destruct (decide (p = a :: q)) as [->|Hne].
  - rewrite lookup_insert_eq. symmetry. exact Hp.
  - now rewrite lookup_insert_ne.
Qed.

Lemma generate_metadata_loop (crowdin_meta_dict subtitle_counts : pyval)
    (langs : list string) (master_file master_file' : list pyval) (w w' : world) :
  for_each langs (locale_step crowdin_meta_dict subtitle_counts) master_file w
    = (Ok master_file', w') →
  (∀ q, os.isdir (fs w') q = os.isdir (fs w) q) ∧
  ∃ added,
    master_file' = master_file ++ added ∧
    Forall index_record added ∧
    List.length added =
      List.length (List.filter (λ lang, os.isdir (fs w) (LOCALE_ROOT ++ [lang])) langs).
Proof.
  revert master_file w. induction langs as [|lang langs IH]; simpl;
    intros master_file w H.
  - injection H as <- <-. split; [reflexivity|].
    exists []. rewrite app_nil_r. repeat split. constructor.
  - apply bind_ok in H as (master1 & w1 & Hstep & H).
    apply IH in H as (Hdirs & added & -> & Hall & Hlen).
    destruct (os.isdir (fs w) (LOCALE_ROOT ++ [lang])) eqn:Hdir.
    + destruct (generate_metadata_locale_run _ _ _ _ _ _ _ Hdir Hstep)
        as (crowdin_meta & prior & entry & srt_count & u
            & _ & _ & _ & Hu & Hnd & Hfs & _ & ->).
      assert (Hsame : ∀ q, os.isdir (fs w1) q = os.isdir (fs w) q)
        by (intros q; rewrite Hfs; now apply isdir_insert_file).
      split; [intros q; now rewrite Hdirs, Hsame|].
      exists (PDict (u ∪ prior) :: added).
      rewrite <- app_assoc. split; [reflexivity|]. split.
      * constructor; [|exact Hall].
        exists (u ∪ prior). split; [reflexivity|].
        pose proof (updated_metadata_ok _ _ _ _ _ _ Hu) as [Hdom _].
        apply updated_metadata_fields in Hu as [Hsv _].
        split; [rewrite dom_union_L, Hdom; set_solver|].
        now apply lookup_union_Some_l.
      * simpl. rewrite Hlen. do 2 f_equal.
        apply filter_ext. intros l. apply Hsame.
    + unfold generate_metadata_locale, mbind, M_bind, os.path_isdir in Hstep.
      rewrite Hdir in Hstep. injection Hstep as <- <-.
      split; [exact Hdirs|].
      exists added. repeat split; assumption.
Qed.

End MergerSteps.

Section MergerRuns.

Variable VERSION : string.
Variable version_diff : pyval → pyval → Z.
Variables LOCALE_ROOT LANGUAGE_PACK_ROOT SUBTITLES_DATA_ROOT : path.
Variables CROWDIN_PROJECT_ID CROWDIN_PROJECT_KEY : string.
Variable convert_language_code_format : string → bool → string.
Variable get_language_name : string → string.
Variable requests_get : string → result response.

#[local] Abbreviation merge_all :=
  (generate_metadata VERSION version_diff LOCALE_ROOT LANGUAGE_PACK_ROOT
     SUBTITLES_DATA_ROOT CROWDIN_PROJECT_ID CROWDIN_PROJECT_KEY
     convert_language_code_format get_language_name requests_get).

(** X10.  When the status request is answered with a client or server
    error status, [generate_metadata] raises that HTTP error before it
    reads or writes any file: only its first line is in the log. *)
Theorem generate_metadata_status_error_is_fatal (r : response) (w : world) :
  requests_get (status_request_url CROWDIN_PROJECT_ID CROWDIN_PROJECT_KEY) = Ok r →
  (400 ≤ status_code r < 600)%Z →
  merge_all w =
    (Raise (HTTPError (status_code r)),
     World (fs w) (log w ++ [Info "Generating new po file metadata"])).
Proof.
  intros Hr Hs. unfold generate_metadata.
  erewrite bind_step by reflexivity.
  apply bind_raise. unfold get_crowdin_meta.
  fold (status_request_url CROWDIN_PROJECT_ID CROWDIN_PROJECT_KEY). rewrite Hr.
  erewrite bind_step by reflexivity.
  apply bind_raise. now apply raise_for_status_error.
Qed.

(** X11.  After [generate_metadata] returns, the availability index
    holds a list with as many records as the locale root has directories;
    each record is an object that has the six updated keys and the
    running software version. *)
Theorem generate_metadata_index (w w' : world) :
  merge_all w = (Ok (), w') →
  ∃ master_file,
    stored_record (fs w')
      (LANGUAGE_PACK_ROOT ++ [LANGUAGE_PACK_AVAILABILITY_FILENAME])
      = Some (PList master_file) ∧
    List.length master_file =
      List.length
        (List.filter (λ lang, os.isdir (fs w) (LOCALE_ROOT ++ [lang]))
           (os.children (fs w) LOCALE_ROOT)) ∧
    Forall (λ v, ∃ d, v = PDict d ∧ updated_keys ⊆ dom d ∧
                      d !! "software_version" = Some (PStr VERSION))
           master_file.
Proof.
  intros H. unfold generate_metadata in H.
  apply bind_ok in H as ([] & w1 & Hi & H).
  unfold logging.info in Hi. injection Hi as <-.
  apply bind_ok in H as (crowdin_meta_dict & w2 & Hc & H).
  assert (w2 = World (fs w) (log w ++ [Info "Generating new po file metadata"]))
    as ->.
  { unfold get_crowdin_meta in Hc.
    apply bind_ok in Hc as (r & w3 & Hr & Hc). apply lift_ok in Hr as [_ ->].
    apply bind_ok in Hc as ([] & w3 & Hs & Hc).
    unfold requests.raise_for_status in Hs.
    destruct (_ && _)%bool; [discriminate|]. injection Hs as <-.
    now apply lift_ok in Hc as [_ ->]. }
  apply bind_ok in H as (c & w2 & Hread & H).
  unfold read_file in Hread. simpl in Hread.
  destruct (os.node_at (fs w) _) as [[|c']|]; try discriminate.
  injection Hread as <- <-.
  apply bind_ok in H as (subtitle_counts & w2 & Hl & H).
  apply lift_ok in Hl as [_ ->].
  apply bind_ok in H as (langs & w2 & Hls & H).
  unfold os.listdir in Hls. simpl in Hls.
  destruct (os.isdir (fs w) LOCALE_ROOT); [|discriminate].
  injection Hls as <- <-.
  apply bind_ok in H as (master_file & w2 & Hloop & H).
  apply generate_metadata_loop in Hloop as (_ & added & -> & Hall & Hlen).
  simpl in Hlen.
  apply bind_ok in H as ([] & w3 & _ & H).
  apply bind_ok in H as ([] & w4 & Hw & H).
  unfold logging.info in H. injection H as <-. simpl.
  unfold write_file in Hw. destruct (_ && _)%bool; [|discriminate].
  injection Hw as <-. simpl.
  exists added. split; [|split; assumption].
  unfold stored_record. now rewrite node_at_snoc, lookup_insert_eq.
Qed.

End MergerRuns.

(** ** The fetcher and its requests *)

Section FetcherRuns.

Variables LOCALE_ROOT : path.
Variables CROWDIN_PROJECT_ID CROWDIN_PROJECT_KEY : string.
Variable convert_language_code_format : string → bool → string.
Variable requests_get : string → result response.

#[local] Abbreviation download :=
  (download_latest_translations LOCALE_ROOT CROWDIN_PROJECT_ID
     CROWDIN_PROJECT_KEY convert_language_code_format requests_get).
#[local] Abbreviation build :=
  (build_translations requests_get).

(** Both requests log a status error and go on. *)
Lemma status_is_logged (r : response) (k : M unit) (w : world) :
  (∀ w, ∃ w', k w = (Ok (), w') ∧ fs w' = fs w) →
  ∃ w', try_except_else (requests.raise_for_status r) logging.error k w
          = (Ok (), w') ∧ fs w' = fs w.
Proof.
  intros Hk. unfold try_except_else, requests.raise_for_status.
  destruct (_ && _)%bool; simpl.
  - eexists. split; reflexivity.
  - apply Hk.
Qed.

Lemma build_translations_answered (project_id project_key : string)
    (r : response) (w : world) :
  requests_get (export_request_url project_id project_key) = Ok r →
  ∃ w', build project_id project_key w = (Ok (), w') ∧ fs w' = fs w.
Proof.
  intros Hr. unfold build_translations.
  erewrite bind_step by reflexivity.
  fold (export_request_url project_id project_key). rewrite Hr.
  erewrite bind_step by reflexivity.
  apply (status_is_logged r (mret ())
           (World (fs w)
              (log w ++
                 [Info "Requesting that CrowdIn build a fresh zip of our translations"]))).
  intros w0. eexists. split; reflexivity.
Qed.

(** The stage up to the unpacking, when both requests are answered. *)
Lemma download_answered (project_id project_key language_code : string)
    (r0 r : response) (w : world) :
  requests_get (export_request_url CROWDIN_PROJECT_ID CROWDIN_PROJECT_KEY) = Ok r0 →
  requests_get (download_request_url project_id project_key language_code) = Ok r →
  ∃ w1, fs w1 = fs w ∧
    download project_id project_key language_code w =
    (unpack_and_copy LOCALE_ROOT convert_language_code_format r
       (LOCALE_ROOT ++ ["tmp"])
     ≫= λ _, clean_up (LOCALE_ROOT ++ ["tmp"])) w1.
Proof.
  intros Hr0 Hr.
  destruct (build_translations_answered _ _ _ w Hr0) as (w0 & Hb & Hfs0).
  destruct (status_is_logged r
              (logging.info "Successfully downloaded zip archive")
              (World (fs w0)
                 (log w0 ++
                    [Info "Attempting to download a zip archive of current translations"])))
    as (w1 & Ht & Hfs1).
  { intros w2. eexists. split; reflexivity. }
  exists w1. split; [now rewrite Hfs1|].
  unfold download_latest_translations.
  erewrite bind_step by exact Hb.
  erewrite bind_step by reflexivity.
  fold (download_request_url project_id project_key language_code). rewrite Hr.
  erewrite bind_step by reflexivity.
  erewrite bind_step by exact Ht.
  reflexivity.
Qed.

(** X12.  When the build request is answered, whatever the status,
    [build_translations] returns: the file system is as it was and the
    log has the announcement, followed by the HTTP error when the status
    is a client or server error. *)
Theorem build_translations_never_raises_on_status
    (project_id project_key : string) (r : response) (w : world) :
  requests_get (export_request_url project_id project_key) = Ok r →
  build project_id project_key w =
    (Ok (),
     World (fs w)
       (log w ++
          Info "Requesting that CrowdIn build a fresh zip of our translations"
          :: if (Z.leb 400 (status_code r) && Z.ltb (status_code r) 600)%bool
             then [Error (HTTPError (status_code r))] else [])).
Proof.
  intros Hr. unfold build_translations.
  erewrite bind_step by reflexivity.
  fold (export_request_url project_id project_key). rewrite Hr.
  erewrite bind_step by reflexivity.
  unfold try_except_else, requests.raise_for_status.
  destruct (_ && _)%bool; simpl; [|reflexivity].
  unfold logging.error. simpl. now rewrite <- app_assoc.
Qed.

(** A body that is no archive stops the unpacking at once. *)
Lemma unpack_not_an_archive (r : response) (w : world) :
  (∀ members, body r ≠ ZipArchive members) →
  (unpack_and_copy LOCALE_ROOT convert_language_code_format r
     (LOCALE_ROOT ++ ["tmp"])
   ≫= λ _, clean_up (LOCALE_ROOT ++ ["tmp"])) w = (Raise BadZipfile, w).
Proof.
  intros Hb. apply bind_raise. unfold unpack_and_copy. apply bind_raise.
  unfold lift, zipfile.ZipFile.
  destruct (body r) as [| |members]; try reflexivity.
  now destruct (Hb members).
Qed.

(** X13.  When both requests are answered and the body of the download
    is not a zip archive, [download_latest_translations] raises
    BadZipfile with the file system as it was, whatever the statuses. *)
Theorem download_not_an_archive
    (project_id project_key language_code : string) (r0 r : response)
    (w : world) :
  requests_get (export_request_url CROWDIN_PROJECT_ID CROWDIN_PROJECT_KEY) = Ok r0 →
  requests_get (download_request_url project_id project_key language_code) = Ok r →
  (∀ members, body r ≠ ZipArchive members) →
  ∃ w', download project_id project_key language_code w = (Raise BadZipfile, w') ∧
        fs w' = fs w.
Proof.
  intros Hr0 Hr Hb.
  destruct (download_answered _ _ _ _ _ w Hr0 Hr) as (w1 & Hfs & ->).
  exists w1. split; [|exact Hfs].
  now apply unpack_not_an_archive.
Qed.

(** X14.  When the downloaded archive has no members and the scratch
    path is not a directory, [download_latest_translations] raises
    OSError, from listing the scratch directory nothing was extracted
    into, with the file system as it was. *)
Theorem download_empty_archive
    (project_id project_key language_code : string) (r0 r : response)
    (w : world) :
  requests_get (export_request_url CROWDIN_PROJECT_ID CROWDIN_PROJECT_KEY) = Ok r0 →
  requests_get (download_request_url project_id project_key language_code) = Ok r →
  body r = ZipArchive [] →
  os.isdir (fs w) (LOCALE_ROOT ++ ["tmp"]) = false →
  ∃ w', download project_id project_key language_code w = (Raise OSError, w') ∧
        fs w' = fs w.
Proof.
  intros Hr0 Hr Hb Hd.
  destruct (download_answered _ _ _ _ _ w Hr0 Hr) as (w1 & Hfs & ->).
  eexists. split.
  - apply bind_raise. unfold unpack_and_copy. rewrite Hb.
    erewrite bind_step by reflexivity.
    erewrite bind_step by reflexivity.
    unfold extract_new_po.
    erewrite bind_step by reflexivity.
    apply bind_raise. unfold os.listdir. simpl. rewrite Hfs, Hd. reflexivity.
  - reflexivity.
Qed.

End FetcherRuns.

(** ** The whole update *)

Section UpdateRuns.

Variable VERSION : string.
Variable version_diff : pyval → pyval → Z.
Variables LOCALE_ROOT LANGUAGE_PACK_ROOT SUBTITLES_DATA_ROOT : path.
Variables CROWDIN_PROJECT_ID CROWDIN_PROJECT_KEY : string.
Variable convert_language_code_format : string → bool → string.
Variable get_language_name : string → string.
Variable requests_get : string → result response.
Variable compile_all_po_files : M unit.

#[local] Abbreviation update :=
  (update_language_packs VERSION version_diff LOCALE_ROOT LANGUAGE_PACK_ROOT
     SUBTITLES_DATA_ROOT CROWDIN_PROJECT_ID CROWDIN_PROJECT_KEY
     convert_language_code_format get_language_name requests_get
     compile_all_po_files).

(** X20.  When both requests of the download are answered and the body
    of the download is not a zip archive, [update_language_packs] raises
    BadZipfile with the file system as it was: the first stage stops the
    others, no metadata is generated, nothing compiled and no pack
    made. *)
Theorem update_language_packs_stops_at_download (r0 r : response) (w : world) :
  requests_get (export_request_url CROWDIN_PROJECT_ID CROWDIN_PROJECT_KEY) = Ok r0 →
  requests_get
    (download_request_url CROWDIN_PROJECT_ID CROWDIN_PROJECT_KEY "all") = Ok r →
  (∀ members, body r ≠ ZipArchive members) →
  ∃ w', update w = (Raise BadZipfile, w') ∧ fs w' = fs w.
Proof.
  intros Hr0 Hr Hb.
  destruct (download_answered LOCALE_ROOT _ _ convert_language_code_format
              _ _ _ _ _ _ w Hr0 Hr) as (w1 & Hfs & Hd).
  exists w1. split; [|exact Hfs].
  unfold update_language_packs. apply bind_raise.
  rewrite Hd. now apply unpack_not_an_archive.
Qed.

(** X21.  When the member names of the archive the download answers with
    have no empty, [.] or [..] component, then however
    [update_language_packs] ends, the only files written are below the
    locale root, the availability index, the archives
    [<pack root>/<version>/<code>.zip], and what the compiling stage
    writes; every other path is as it was, but for directories made where
    there was nothing. *)
Theorem update_language_packs_writes (F : path → Prop) (w : world) :
  (∀ r, requests_get
          (download_request_url CROWDIN_PROJECT_ID CROWDIN_PROJECT_KEY "all")
          = Ok r →
        zipfile.plain_archive (body r) = true) →
  (∀ w0, writes_only F w0 (compile_all_po_files w0).2) →
  writes_only
    (λ q, below LOCALE_ROOT q ∨
          q = LANGUAGE_PACK_ROOT ++ [LANGUAGE_PACK_AVAILABILITY_FILENAME] ∨
          (∃ lang, q = LANGUAGE_PACK_ROOT
                         ++ [VERSION;
                             convert_language_code_format lang false +:+ ".zip"]) ∨
          F q)
    w (update w).2.
Proof.
  intros Hplain Hc. revert w.
  match goal with |- ∀ w, writes_only ?G w (?c w).2 => change (confined G c) end.
  unfold update_language_packs.
  apply confined_bind.
  { apply confined_download_latest_translations; [exact Hplain| |].
    - intros q Hq. left. eapply below_trans; [apply below_app|exact Hq].
    - intros lang q [H|H]; left;
        (eapply below_trans; [apply below_app|exact H]). }
  intros _. apply confined_bind.
  { eapply confined_mono; [|apply confined_generate_metadata].
    simpl. intros q [->|[lang ->]]; [auto|].
    left. unfold metadata_path. apply below_app. }
  intros _. apply confined_bind.
  { eapply confined_mono; [|exact Hc]. simpl. auto. }
  intros _.
  eapply confined_mono; [|apply confined_zip_language_packs].
  simpl. auto.
Qed.

End UpdateRuns.

(** ** The command *)

Section CommandRuns.

Variable VERSION : string.
Variable version_diff : pyval → pyval → Z.
Variables LOCALE_ROOT LANGUAGE_PACK_ROOT SUBTITLES_DATA_ROOT : path.
Variables CROWDIN_PROJECT_ID CROWDIN_PROJECT_KEY : string.
Variable convert_language_code_format : string → bool → string.
Variable get_language_name : string → string.
Variable requests_get : string → result response.
Variable STATIC_ROOT : path.
Variable compile_all_po_files : M unit.
Variable call_command : string → list (string * pyval) → M unit.
Variable date_days_ago : Z → result string.

#[local] Abbreviation run :=
  (handle VERSION version_diff LOCALE_ROOT LANGUAGE_PACK_ROOT
     SUBTITLES_DATA_ROOT CROWDIN_PROJECT_ID CROWDIN_PROJECT_KEY
     convert_language_code_format get_language_name requests_get STATIC_ROOT
     compile_all_po_files call_command date_days_ago).

(** X15.  When [<static root>/srt] exists, the command ends with the
    CommandError that asks for [move_existing_srts], whatever its options,
    and the world is as it was: nothing was requested, logged or
    written. *)
Theorem handle_outdated_srt_schema (days : pyval) (w : world) :
  os.exists_ (fs w) (STATIC_ROOT ++ ["srt"]) = true →
  run days w =
    (inl (CommandError
            "Please run the command 'move_existing_srts' before continuing."),
     w).
Proof.
  intros He. unfold handle, raise_if_outdated_srt_schema. now rewrite He.
Qed.

(** X16.  When the srt schema is current and [--days] has a value that
    is true but that [int] refuses, the command ends with the exception of
    [int] and the world is as it was: no subtitle command was called and
    no language pack updated. *)
Theorem handle_invalid_days (days : pyval) (e : exn) (w : world) :
  os.exists_ (fs w) (STATIC_ROOT ++ ["srt"]) = false →
  Py.truthy days = true →
  Py.int days = Raise e →
  run days w = (inr (Raise e), w).
Proof.
  intros He Ht Hi. unfold handle, raise_if_outdated_srt_schema.
  rewrite He, Ht. unfold update_srts.
  unfold mbind at 1. unfold M_bind.
  unfold mbind at 1. unfold M_bind.
  rewrite Hi. reflexivity.
Qed.

End CommandRuns.

(** ** The entry point *)

Lemma kaserve_spec (DEBUG : bool) (a : list string) :
  manage.kaserve DEBUG a =
  if (DEBUG && negb (bool_decide ("--traceback" ∈ a)))%bool
  then a ++ ["--traceback"] else a.
Proof.
  unfold manage.kaserve. destruct DEBUG; [|reflexivity]. simpl.
  now destruct (bool_decide _).
Qed.

Lemma clean_pyc_long (a : list string) :
  List.length a ≠ 2%nat → manage.clean_pyc a = a.
Proof.
  intros H. unfold manage.clean_pyc. now rewrite bool_decide_eq_false_2.
Qed.

(** A flag added at the end does not make a [clean_pyc] call. *)
Lemma clean_pyc_snoc (a : list string) (flag : string) :
  flag ≠ "clean_pyc" → manage.clean_pyc (a ++ [flag]) = a ++ [flag].
Proof.
  intros Hf. destruct a as [|x [|y a]].
  - reflexivity.
  - unfold manage.clean_pyc. simpl.
    rewrite (bool_decide_eq_false_2 (Some flag = Some "clean_pyc")) by congruence.
    reflexivity.
  - apply clean_pyc_long. simpl. rewrite length_app. simpl. lia.
Qed.

Lemma clean_pyc_cases (a : list string) :
  manage.clean_pyc a = a ∨
  (List.length a = 2%nat ∧ manage.clean_pyc a = a ++ ["--path"; ".."]).
Proof.
  unfold manage.clean_pyc.
  destruct (bool_decide (List.length a = 2%nat)) eqn:E; simpl; [|now left].
  apply bool_decide_eq_true in E.
  destruct (bool_decide _); [now right|now left].
Qed.

(** X17.  The arguments [manage.py] hands over extend the ones it was
    given; in debug mode they have [--traceback]; and when they have
    [runserver] they have [--nostatic]. *)
Theorem argv_guarantees (DEBUG : bool) (a : list string) :
  (∃ added, manage.argv DEBUG a = a ++ added) ∧
  (DEBUG = true → "--traceback" ∈ manage.argv DEBUG a) ∧
  ("runserver" ∈ manage.argv DEBUG a → "--nostatic" ∈ manage.argv DEBUG a).
Proof.
  assert (H1 : ∃ added, manage.kaserve DEBUG a = a ++ added).
  { rewrite kaserve_spec. destruct (_ && _)%bool; [eauto|].
    exists []. now rewrite app_nil_r. }
  assert (H2 : ∀ b, ∃ added, manage.clean_pyc b = b ++ added).
  { intros b. unfold manage.clean_pyc. destruct (_ && _)%bool; [eauto|].
    exists []. now rewrite app_nil_r. }
  assert (H3 : ∀ b, ∃ added, manage.static_files b = b ++ added).
  { intros b. unfold manage.static_files. destruct (_ && _)%bool; [eauto|].
    exists []. now rewrite app_nil_r. }
  unfold manage.argv. split; [|split].
  - destruct H1 as (x & ->).
    destruct (H2 (a ++ x)) as (y & ->).
    destruct (H3 ((a ++ x) ++ y)) as (z & ->).
    exists (x ++ y ++ z). now rewrite !app_assoc.
  - intros ->.
    assert (Hk : "--traceback" ∈ manage.kaserve true a).
    { rewrite kaserve_spec. simpl.
      destruct (bool_decide ("--traceback" ∈ a)) eqn:E; simpl.
      - now apply bool_decide_eq_true in E.
      - apply elem_of_app. right. left. }
    destruct (H2 (manage.kaserve true a)) as (y & ->).
    destruct (H3 (manage.kaserve true a ++ y)) as (z & ->).
    apply elem_of_app. left. apply elem_of_app. now left.
  - generalize (manage.clean_pyc (manage.kaserve DEBUG a)). intros b.
    unfold manage.static_files.
    destruct (bool_decide ("runserver" ∈ b)) eqn:Er; simpl.
    + destruct (bool_decide ("--nostatic" ∈ b)) eqn:En; simpl.
      * intros _. now apply bool_decide_eq_true in En.
      * intros _. apply elem_of_app. right. left.
    + intros Hr. apply bool_decide_eq_false in Er. contradiction.
Qed.

(** X18.  In debug mode, when [--traceback] was not given, the only
    arguments added are [--traceback] and, for [runserver] without it,
    [--nostatic]: [clean_pyc] does not get its default [--path ..], as the
    flag added before makes the arguments more than two. *)
Theorem argv_debug_skips_clean_pyc_path (a : list string) :
  "--traceback" ∉ a →
  manage.argv true a =
    a ++ "--traceback" ::
      (if (bool_decide ("runserver" ∈ a)
           && negb (bool_decide ("--nostatic" ∈ a)))%bool
       then ["--nostatic"] else []).
Proof.
  intros Ht. unfold manage.argv.
  rewrite kaserve_spec. simpl.
  rewrite bool_decide_eq_false_2 by exact Ht. simpl.
  assert (Hc : manage.clean_pyc (a ++ ["--traceback"]) = a ++ ["--traceback"])
    by now apply clean_pyc_snoc.
  rewrite Hc. unfold manage.static_files.
  assert (Hr : bool_decide ("runserver" ∈ a ++ ["--traceback"])
               = bool_decide ("runserver" ∈ a)).
  { apply bool_decide_ext. rewrite elem_of_app, list_elem_of_singleton.
    split; [intros [?|?]; [assumption|discriminate]|auto]. }
  assert (Hn : bool_decide ("--nostatic" ∈ a ++ ["--traceback"])
               = bool_decide ("--nostatic" ∈ a)).
  { apply bool_decide_ext. rewrite elem_of_app, list_elem_of_singleton.
    split; [intros [?|?]; [assumption|discriminate]|auto]. }
  rewrite Hr, Hn. destruct (_ && _)%bool.
  - now rewrite <- app_assoc.
  - reflexivity.
Qed.

(** X19.  Rewriting the arguments a second time changes nothing. *)
Theorem argv_idempotent (DEBUG : bool) (a : list string) :
  manage.argv DEBUG (manage.argv DEBUG a) = manage.argv DEBUG a.
Proof.
  unfold manage.argv.
  assert (Hk : ∀ b, "--traceback" ∈ b ∨ DEBUG = false → manage.kaserve DEBUG b = b).
  { intros b Hb. rewrite kaserve_spec. destruct DEBUG; [|reflexivity].
    destruct Hb as [Hb|Hb]; [|discriminate].
    now rewrite bool_decide_eq_true_2. }
  assert (Hk0 : "--traceback" ∈ manage.kaserve DEBUG a ∨ DEBUG = false).
  { destruct DEBUG; [left|now right]. rewrite kaserve_spec. simpl.
    destruct (bool_decide ("--traceback" ∈ a)) eqn:E; simpl.
    - now apply bool_decide_eq_true in E.
    - apply elem_of_app. right. left. }
  set (b := manage.kaserve DEBUG a) in *.
  assert (Hc : ∀ c, "--traceback" ∈ c ∨ DEBUG = false →
                    "--traceback" ∈ manage.clean_pyc c ∨ DEBUG = false).
  { intros c [Hc|Hc]; [left|now right]. unfold manage.clean_pyc.
    destruct (_ && _)%bool; [|exact Hc]. apply elem_of_app. now left. }
  assert (Hs : ∀ c, "--traceback" ∈ c ∨ DEBUG = false →
                    "--traceback" ∈ manage.static_files c ∨ DEBUG = false).
  { intros c [Hc'|Hc']; [left|now right]. unfold manage.static_files.
    destruct (_ && _)%bool; [|exact Hc']. apply elem_of_app. now left. }
  rewrite (Hk _ (Hs _ (Hc _ Hk0))).
  assert (Hcs : manage.clean_pyc (manage.static_files (manage.clean_pyc b))
                = manage.static_files (manage.clean_pyc b)).
  { destruct (clean_pyc_cases b) as [E|[Hlen E]]; rewrite E.
    - unfold manage.static_files. destruct (_ && _)%bool; [|exact E].
      now apply clean_pyc_snoc.
    - apply clean_pyc_long. unfold manage.static_files.
      destruct (_ && _)%bool; rewrite !length_app; simpl; lia. }
  rewrite Hcs.
  generalize (manage.clean_pyc b). intros c.
  unfold manage.static_files.
  destruct (bool_decide ("runserver" ∈ c)) eqn:Er; simpl; [|now rewrite Er].
  destruct (bool_decide ("--nostatic" ∈ c)) eqn:En; simpl.
  - now rewrite Er, En.
  - rewrite (bool_decide_eq_true_2 ("--nostatic" ∈ c ++ ["--nostatic"])).
    + now rewrite Bool.andb_false_r.
    + apply elem_of_app. right. left.
Qed.

(** ** The scenarios, run *)

(** C8 at the first run: the fresh record of [es] gets version 1. *)
Lemma increment_crowdin_version_first_witness :
  let fresh := Scenario.dict [("code", PStr "es"); ("name", PStr "Spanish")] in
  (Py.get_field fresh "total_translated" = PNone ∨
   (Scenario.version_diff (Py.get_field fresh "software_version") (PStr "1.0")
      < 0)%Z) ∧
  increment_crowdin_version "1.0" Scenario.version_diff (PDict fresh)
    (Scenario.es_status 80) = Ok (PInt 1).
Proof.
  assert (H : Py.get_field
                (Scenario.dict [("code", PStr "es"); ("name", PStr "Spanish")])
                "total_translated" = PNone) by reflexivity.
  split; [left; exact H|].
  apply (increment_crowdin_version_first "1.0" Scenario.version_diff).
  left. exact H.
Defined.

(** C10 on a record with a zero count and version 3. *)
Lemma increment_crowdin_version_zero_count_witness :
  Scenario.record 0 3 "1.0" !! "total_translated" = Some (PInt 0) ∧
  increment_crowdin_version "1.0" Scenario.version_diff
    (PDict (Scenario.record 0 3 "1.0")) (Scenario.es_status 5) = Ok (PInt 1).
Proof.
  assert (H : Scenario.record 0 3 "1.0" !! "total_translated" = Some (PInt 0))
    by reflexivity.
  split; [exact H|].
  exact (proj1 (increment_crowdin_version_zero_count "1.0"
                  Scenario.version_diff _ (Scenario.es_status 5) H)).
Defined.

(** The first scenario of the spec: same count, same software version. *)
Lemma increment_crowdin_version_unchanged_witness :
  increment_crowdin_version "1.0" Scenario.version_diff
    (PDict Scenario.es_record)
    (PDict (Scenario.dict [("approved", PInt 80)])) = Ok (PInt 3).
Proof.
  apply (increment_crowdin_version_unchanged "1.0" Scenario.version_diff
           Scenario.es_record (Scenario.dict [("approved", PInt 80)]));
    vm_compute; congruence.
Defined.

(** The second scenario of the spec: the approved count moved to 95. *)
Lemma increment_crowdin_version_changed_witness :
  increment_crowdin_version "1.0" Scenario.version_diff
    (PDict Scenario.es_record)
    (PDict (Scenario.dict [("approved", PInt 95)])) = Ok (PInt (3 + 1)).
Proof.
  apply (increment_crowdin_version_changed "1.0" Scenario.version_diff
           Scenario.es_record (Scenario.dict [("approved", PInt 95)]) 3);
    vm_compute; congruence.
Defined.

(** C4 fails on the third scenario of the spec: the counts are equal and
    the stored version is 3, but the software moved from 1.0 to 1.1 and
    the result is 1. *)
Lemma increment_crowdin_version_equal_counts_counterexample :
  Py.eq (Py.get_field Scenario.es_record "total_translated") (PInt 80) = true ∧
  Scenario.es_record !! "crowdin_version" = Some (PInt 3) ∧
  increment_crowdin_version "1.1" Scenario.version_diff
    (PDict Scenario.es_record) (Scenario.es_status 80) = Ok (PInt 1) ∧
  increment_crowdin_version "1.1" Scenario.version_diff
    (PDict Scenario.es_record) (Scenario.es_status 80) ≠ Ok (PInt 3).
Proof. repeat split; try reflexivity. vm_compute. discriminate. Qed.

(** The same happens, at one software version, when both counts are 0. *)
Example increment_crowdin_version_equal_zero_counts :
  increment_crowdin_version "1.0" Scenario.version_diff
    (PDict (Scenario.record 0 3 "1.0")) (Scenario.es_status 0) = Ok (PInt 1).
Proof. reflexivity. Qed.

(** A stored version 0 is present, and replaced by 1. *)
Example increment_crowdin_version_equal_counts_version_zero :
  increment_crowdin_version "1.0" Scenario.version_diff
    (PDict (Scenario.record 80 0 "1.0")) (Scenario.es_status 80) = Ok (PInt 1).
Proof. reflexivity. Qed.

(** C5 fails on a recorded count of 0: it differs from the approved count
    5 and the software version is the same, but the result is 1, not
    3 + 1. *)
Lemma increment_crowdin_version_changed_counterexample :
  Scenario.record 0 3 "1.0" !! "total_translated" = Some (PInt 0) ∧
  Py.eq (PInt 0) (Py.get_field (Scenario.dict [("approved", PInt 5)]) "approved")
    = false ∧
  Scenario.version_diff (PStr "1.0") (PStr "1.0") = 0 ∧
  increment_crowdin_version "1.0" Scenario.version_diff
    (PDict (Scenario.record 0 3 "1.0"))
    (PDict (Scenario.dict [("approved", PInt 5)])) = Ok (PInt 1) ∧
  increment_crowdin_version "1.0" Scenario.version_diff
    (PDict (Scenario.record 0 3 "1.0"))
    (PDict (Scenario.dict [("approved", PInt 5)])) ≠ Ok (PInt (3 + 1)).
Proof. repeat split; try reflexivity. vm_compute. discriminate. Qed.

(** Without a stored [crowdin_version] the third branch adds 1 to None. *)
Example increment_crowdin_version_changed_no_version :
  increment_crowdin_version "1.0" Scenario.version_diff
    (PDict (Scenario.dict [("total_translated", PInt 80)]))
    (Scenario.es_status 95) = Raise TypeError.
Proof. reflexivity. Qed.

(** C9 on the second scenario: [total_translated] keeps its value 80. *)
Lemma generate_metadata_preserves_other_fields_witness :
  let out := Scenario.merge_locale "1.0" [Scenario.es_status 95]
               Scenario.site_with_record in
  ∃ crowdin_meta prior merged,
    crowdin_meta_for Scenario.convert_language_code_format
      (PList [Scenario.es_status 95]) "es" = Ok crowdin_meta ∧
    load_local_meta Scenario.LOCALE_ROOT "es" crowdin_meta
      (World Scenario.site_with_record []) =
      (Ok (PDict prior), World Scenario.site_with_record []) ∧
    (∀ v, stored_record Scenario.site_with_record
            (metadata_path Scenario.LOCALE_ROOT "es") = Some v →
          v = PDict prior) ∧
    stored_record (fs out.2) (metadata_path Scenario.LOCALE_ROOT "es")
      = Some (PDict merged) ∧
    Scenario.index_of out = [] ++ [PDict merged] ∧
    ∀ k, k ∉ updated_keys → merged !! k = prior !! k.
Proof.
  apply (generate_metadata_preserves_other_fields "1.0" Scenario.version_diff
           Scenario.LOCALE_ROOT Scenario.convert_language_code_format
           Scenario.get_language_name (PList [Scenario.es_status 95])
           Scenario.subtitle_counts "es" []
           (Scenario.index_of
              (Scenario.merge_locale "1.0" [Scenario.es_status 95]
                 Scenario.site_with_record))
           (World Scenario.site_with_record [])
           (Scenario.merge_locale "1.0" [Scenario.es_status 95]
              Scenario.site_with_record).2);
    vm_compute; reflexivity.
Defined.

(** C2 fails on a first run: nothing is stored for [es] before it, and
    the record stored after it has the key [code], which is not one of the
    six updated keys. *)
Lemma generate_metadata_written_keys_counterexample :
  let out := Scenario.merge_locale "1.0" [Scenario.es_status 80]
               Scenario.site in
  out.1 = Ok [PDict (Scenario.dict
                [("code", PStr "es"); ("name", PStr "Spanish");
                 ("percent_translated", PInt 80); ("phrases", PInt 100);
                 ("approved_translations", PInt 80);
                 ("software_version", PStr "1.0");
                 ("crowdin_version", PInt 1); ("subtitle_count", PInt 7)])] ∧
  stored_record Scenario.site Scenario.es_metadata = None ∧
  stored_field (fs out.2) Scenario.es_metadata "code" = Some (PStr "es") ∧
  "code" ∉ updated_keys.
Proof.
  split; [vm_compute; reflexivity|].
  split; [reflexivity|].
  split; [vm_compute; reflexivity|].
  unfold updated_keys. set_solver.
Qed.

(** C2 as the code has it, on that first run: the stored keys are the six
    updated ones with [code] and [name]. *)
Lemma generate_metadata_written_keys_witness :
  let out := Scenario.merge_locale "1.0" [Scenario.es_status 80]
               Scenario.site in
  ∃ merged,
    stored_record (fs out.2) (metadata_path Scenario.LOCALE_ROOT "es")
      = Some (PDict merged) ∧
    match stored_record Scenario.site (metadata_path Scenario.LOCALE_ROOT "es")
    with
    | Some v => ∃ prior, v = PDict prior ∧ dom merged = updated_keys ∪ dom prior
    | None => dom merged = updated_keys ∪ {[ "code"; "name" ]}
    end ∧
    ("total_translated" ∈ dom merged →
     ∃ prior,
       stored_record Scenario.site (metadata_path Scenario.LOCALE_ROOT "es")
         = Some (PDict prior) ∧
       "total_translated" ∈ dom prior).
Proof.
  apply (generate_metadata_written_keys "1.0" Scenario.version_diff
           Scenario.LOCALE_ROOT Scenario.convert_language_code_format
           Scenario.get_language_name (PList [Scenario.es_status 80])
           Scenario.subtitle_counts "es" []
           (Scenario.index_of
              (Scenario.merge_locale "1.0" [Scenario.es_status 80]
                 Scenario.site))
           (World Scenario.site [])
           (Scenario.merge_locale "1.0" [Scenario.es_status 80]
              Scenario.site).2);
    vm_compute; reflexivity.
Defined.



(** C7 on a remote status that lists French only. *)
Lemma generate_metadata_locale_unmatched_witness :
  Scenario.merge_locale "1.0" [Scenario.status "fr" "French" 80]
    Scenario.site_with_record
  = (Raise AttributeError, World Scenario.site_with_record []).
Proof.
  apply (generate_metadata_locale_unmatched "1.0" Scenario.version_diff
           Scenario.LOCALE_ROOT Scenario.convert_language_code_format
           Scenario.get_language_name [Scenario.status "fr" "French" 80]
           Scenario.subtitle_counts "es" []
           (World Scenario.site_with_record [])).
  - vm_compute; reflexivity.
  - constructor; [|constructor].
    exists (PStr "fr"). split; reflexivity.
Defined.

(** The whole of [generate_metadata] stops at such a locale. *)
Example generate_metadata_unmatched_aborts :
  (generate_metadata "1.0" Scenario.version_diff Scenario.LOCALE_ROOT
     Scenario.LANGUAGE_PACK_ROOT Scenario.SUBTITLES_DATA_ROOT
     Scenario.CROWDIN_PROJECT_ID Scenario.CROWDIN_PROJECT_KEY
     Scenario.convert_language_code_format Scenario.get_language_name
     (Scenario.remote (Raise ConnectionError) (Raise ConnectionError)
        (Ok (Response 200 (JsonDoc (PList [Scenario.status "fr" "French" 80])))))
     (World Scenario.site [])).1 = Raise AttributeError.
Proof. vm_compute. reflexivity. Qed.

(** C1 fails on an error response that carries an archive: the stage
    returns normally, the HTTP error is only in the log, and the copy
    step that follows it has put the translation in place. *)
Lemma download_error_status_counterexample :
  let out := Scenario.fetch (Response 500 Scenario.es_po_archive)
               Scenario.site in
  out.1 = Ok () ∧
  log out.2 =
    [Info "Requesting that CrowdIn build a fresh zip of our translations";
     Info "Attempting to download a zip archive of current translations";
     Error (HTTPError 500);
     Info "Unpacking new translations"] ∧
  fs out.2 !! ["locale"; "es"; "LC_MESSAGES"; "django.po"]
    = Some (File (Bytes "msgid")).
Proof. repeat split; vm_compute; reflexivity. Qed.

(** With a body that is no archive the stage fails, in the unpack step
    and with its exception. *)
Example download_error_status_bad_body :
  (Scenario.fetch (Response 404 (Bytes "<html>")) Scenario.site).1
    = Raise BadZipfile.
Proof. vm_compute. reflexivity. Qed.

(** C1 as the code has it, on the error response that carries an archive. *)
Lemma download_error_status_is_logged_witness :
  Scenario.fetch (Response 500 Scenario.es_po_archive) Scenario.site =
  (unpack_and_copy Scenario.LOCALE_ROOT Scenario.convert_language_code_format
     (Response 500 Scenario.es_po_archive) (Scenario.LOCALE_ROOT ++ ["tmp"])
   ≫= λ _, clean_up (Scenario.LOCALE_ROOT ++ ["tmp"]))
    (World Scenario.site
       ([Info "Requesting that CrowdIn build a fresh zip of our translations"]
        ++ [Info "Attempting to download a zip archive of current translations";
            Error (HTTPError 500)])).
Proof.
  apply (download_error_status_is_logged Scenario.LOCALE_ROOT
           Scenario.CROWDIN_PROJECT_ID Scenario.CROWDIN_PROJECT_KEY
           Scenario.convert_language_code_format _
           Scenario.CROWDIN_PROJECT_ID Scenario.CROWDIN_PROJECT_KEY "all"
           (Response 500 Scenario.es_po_archive)
           (World Scenario.site [])
           (World Scenario.site
              [Info "Requesting that CrowdIn build a fresh zip of our translations"])).
  - vm_compute. reflexivity.
  - vm_compute. reflexivity.
  - simpl. lia.
Defined.

(** C6.  The scratch directory is not removed on every exit path.  On an
    archive that holds a directory named like a translation file the copy
    raises IOError, the cleanup of lines 113 to 115 is not reached, and
    the scratch directory is still there after the invocation.  A later
    run on a good archive, which completes on a clean tree, then fails on
    what was left behind. *)
Theorem download_failed_copy_leaves_scratch :
  let out := Scenario.fetch (Response 200 Scenario.po_directory_archive)
               Scenario.site in
  out.1 = Raise IOError ∧
  os.exists_ (fs out.2) (Scenario.LOCALE_ROOT ++ ["tmp"]) = true ∧
  (Scenario.fetch (Response 200 Scenario.fr_po_archive) Scenario.site).1
    = Ok () ∧
  (Scenario.fetch (Response 200 Scenario.fr_po_archive) (fs out.2)).1
    = Raise IOError.
Proof. repeat split; vm_compute; reflexivity. Qed.

(** A download that completes leaves no scratch directory. *)
Lemma download_removes_scratch_on_return_witness :
  os.exists_
    (fs (Scenario.fetch (Response 200 Scenario.es_po_archive) Scenario.site).2)
    (Scenario.LOCALE_ROOT ++ ["tmp"]) = false.
Proof.
  apply (download_removes_scratch_on_return Scenario.LOCALE_ROOT
           Scenario.CROWDIN_PROJECT_ID Scenario.CROWDIN_PROJECT_KEY
           Scenario.convert_language_code_format
           (Scenario.remote (Ok (Response 200 (Bytes "ok")))
              (Ok (Response 200 Scenario.es_po_archive))
              (Raise ConnectionError))
           Scenario.CROWDIN_PROJECT_ID Scenario.CROWDIN_PROJECT_KEY "all"
           (World Scenario.site [])).
  vm_compute. reflexivity.
Defined.

(** ** Further scenarios, run *)

(** The build request answered with 503: the stage returns, the error is
    in the log. *)
Lemma build_translations_never_raises_on_status_witness :
  build_translations
    (Scenario.remote (Ok (Response 503 (Bytes "busy")))
       (Raise ConnectionError) (Raise ConnectionError))
    Scenario.CROWDIN_PROJECT_ID Scenario.CROWDIN_PROJECT_KEY
    (World Scenario.site [])
  = (Ok (),
     World Scenario.site
       [Info "Requesting that CrowdIn build a fresh zip of our translations";
        Error (HTTPError 503)]).
Proof.
  apply (build_translations_never_raises_on_status
           (Scenario.remote (Ok (Response 503 (Bytes "busy")))
              (Raise ConnectionError) (Raise ConnectionError))
           Scenario.CROWDIN_PROJECT_ID Scenario.CROWDIN_PROJECT_KEY
           (Response 503 (Bytes "busy")) (World Scenario.site [])).
  vm_compute. reflexivity.
Defined.

(** A 404 page in place of the archive. *)
Lemma download_not_an_archive_witness :
  ∃ w', Scenario.fetch (Response 404 (Bytes "Not found")) Scenario.site
          = (Raise BadZipfile, w') ∧
        fs w' = Scenario.site.
Proof.
  apply (download_not_an_archive Scenario.LOCALE_ROOT
           Scenario.CROWDIN_PROJECT_ID Scenario.CROWDIN_PROJECT_KEY
           Scenario.convert_language_code_format _
           Scenario.CROWDIN_PROJECT_ID Scenario.CROWDIN_PROJECT_KEY "all"
           (Response 200 (Bytes "ok")) (Response 404 (Bytes "Not found"))
           (World Scenario.site [])).
  - vm_compute. reflexivity.
  - vm_compute. reflexivity.
  - intros members. discriminate.
Defined.

(** An archive without members. *)
Lemma download_empty_archive_witness :
  ∃ w', Scenario.fetch (Response 200 (ZipArchive [])) Scenario.site
          = (Raise OSError, w') ∧
        fs w' = Scenario.site.
Proof.
  apply (download_empty_archive Scenario.LOCALE_ROOT
           Scenario.CROWDIN_PROJECT_ID Scenario.CROWDIN_PROJECT_KEY
           Scenario.convert_language_code_format _
           Scenario.CROWDIN_PROJECT_ID Scenario.CROWDIN_PROJECT_KEY "all"
           (Response 200 (Bytes "ok")) (Response 200 (ZipArchive []))
           (World Scenario.site [])).
  - vm_compute. reflexivity.
  - vm_compute. reflexivity.
  - reflexivity.
  - vm_compute. reflexivity.
Defined.

(** The status request answered with 500. *)
Lemma generate_metadata_status_error_is_fatal_witness :
  generate_metadata "1.0" Scenario.version_diff Scenario.LOCALE_ROOT
    Scenario.LANGUAGE_PACK_ROOT Scenario.SUBTITLES_DATA_ROOT
    Scenario.CROWDIN_PROJECT_ID Scenario.CROWDIN_PROJECT_KEY
    Scenario.convert_language_code_format Scenario.get_language_name
    (Scenario.remote (Raise ConnectionError) (Raise ConnectionError)
       (Ok (Response 500 (Bytes "oops"))))
    (World Scenario.site_with_record [])
  = (Raise (HTTPError 500),
     World Scenario.site_with_record [Info "Generating new po file metadata"]).
Proof.
  apply (generate_metadata_status_error_is_fatal "1.0" Scenario.version_diff
           Scenario.LOCALE_ROOT Scenario.LANGUAGE_PACK_ROOT
           Scenario.SUBTITLES_DATA_ROOT Scenario.CROWDIN_PROJECT_ID
           Scenario.CROWDIN_PROJECT_KEY Scenario.convert_language_code_format
           Scenario.get_language_name _ (Response 500 (Bytes "oops"))
           (World Scenario.site_with_record [])).
  - vm_compute. reflexivity.
  - simpl. lia.
Defined.

(** A stored document that is a list. *)
Lemma generate_metadata_locale_not_an_object_witness :
  ∃ e, Scenario.merge_locale "1.0" [Scenario.es_status 80]
         (<[Scenario.es_metadata := File (JsonDoc (PList []))]> Scenario.site)
       = (Raise e,
          World (<[Scenario.es_metadata := File (JsonDoc (PList []))]>
                   Scenario.site) []).
Proof.
  apply (generate_metadata_locale_not_an_object "1.0" Scenario.version_diff
           Scenario.LOCALE_ROOT Scenario.convert_language_code_format
           Scenario.get_language_name (PList [Scenario.es_status 80])
           Scenario.subtitle_counts "es" []
           (World (<[Scenario.es_metadata := File (JsonDoc (PList []))]>
                     Scenario.site) [])
           (PList [])).
  - vm_compute. reflexivity.
  - vm_compute. reflexivity.
  - intros d. discriminate.
Defined.

(** A language that has no subtitles. *)
Lemma generate_metadata_locale_no_subtitles_witness :
  let out := generate_metadata_locale "1.0" Scenario.version_diff
               Scenario.LOCALE_ROOT Scenario.convert_language_code_format
               Scenario.get_language_name (PList [Scenario.es_status 80])
               (PDict ∅) "es" [] (World Scenario.site []) in
  ∃ merged,
    stored_record (fs out.2) (metadata_path Scenario.LOCALE_ROOT "es")
      = Some (PDict merged) ∧
    merged !! "subtitle_count" = Some (PInt 0).
Proof.
  apply (generate_metadata_locale_no_subtitles "1.0" Scenario.version_diff
           Scenario.LOCALE_ROOT Scenario.convert_language_code_format
           Scenario.get_language_name (PList [Scenario.es_status 80])
           ∅ "es" []
           (Scenario.index_of
              (generate_metadata_locale "1.0" Scenario.version_diff
                 Scenario.LOCALE_ROOT Scenario.convert_language_code_format
                 Scenario.get_language_name (PList [Scenario.es_status 80])
                 (PDict ∅) "es" [] (World Scenario.site [])))
           (World Scenario.site [])
           (generate_metadata_locale "1.0" Scenario.version_diff
              Scenario.LOCALE_ROOT Scenario.convert_language_code_format
              Scenario.get_language_name (PList [Scenario.es_status 80])
              (PDict ∅) "es" [] (World Scenario.site [])).2);
    vm_compute; reflexivity.
Defined.

(** A second run on the record of a first one, with more strings
    approved. *)
Lemma generate_metadata_locale_stays_at_one_witness :
  let first := Scenario.merge_locale "1.0" [Scenario.es_status 80]
                 Scenario.site in
  let out := Scenario.merge_locale "1.0" [Scenario.es_status 95]
               (fs first.2) in
  ∃ new,
    stored_record (fs out.2) (metadata_path Scenario.LOCALE_ROOT "es")
      = Some (PDict new) ∧
    new !! "total_translated" = None ∧
    new !! "crowdin_version" = Some (PInt 1).
Proof.
  apply (generate_metadata_locale_stays_at_one "1.0" Scenario.version_diff
           Scenario.LOCALE_ROOT Scenario.convert_language_code_format
           Scenario.get_language_name (PList [Scenario.es_status 95])
           Scenario.subtitle_counts "es" []
           (Scenario.index_of
              (Scenario.merge_locale "1.0" [Scenario.es_status 95]
                 (fs (Scenario.merge_locale "1.0" [Scenario.es_status 80]
                        Scenario.site).2)))
           (World (fs (Scenario.merge_locale "1.0" [Scenario.es_status 80]
                         Scenario.site).2) [])
           (Scenario.merge_locale "1.0" [Scenario.es_status 95]
              (fs (Scenario.merge_locale "1.0" [Scenario.es_status 80]
                     Scenario.site).2)).2);
    vm_compute; reflexivity.
Defined.

(** The stored version 3 of the scenario. *)
Lemma generate_metadata_locale_version_positive_witness :
  let out := Scenario.merge_locale "1.0" [Scenario.es_status 95]
               Scenario.site_with_record in
  ∃ new n,
    stored_record (fs out.2) (metadata_path Scenario.LOCALE_ROOT "es")
      = Some (PDict new) ∧
    new !! "crowdin_version" = Some (PInt n) ∧ (1 ≤ n)%Z.
Proof.
  apply (generate_metadata_locale_version_positive "1.0" Scenario.version_diff
           Scenario.LOCALE_ROOT Scenario.convert_language_code_format
           Scenario.get_language_name (PList [Scenario.es_status 95])
           Scenario.subtitle_counts "es" []
           (Scenario.index_of
              (Scenario.merge_locale "1.0" [Scenario.es_status 95]
                 Scenario.site_with_record))
           (World Scenario.site_with_record [])
           (Scenario.merge_locale "1.0" [Scenario.es_status 95]
              Scenario.site_with_record).2).
  - vm_compute. reflexivity.
  - vm_compute. discriminate.
  - vm_compute. reflexivity.
Defined.

(** The index of the scenario has the record of its one locale. *)
Lemma generate_metadata_index_witness :
  let out := Scenario.merge "1.0" 80 Scenario.site in
  ∃ master_file,
    stored_record (fs out.2)
      (Scenario.LANGUAGE_PACK_ROOT ++ [LANGUAGE_PACK_AVAILABILITY_FILENAME])
      = Some (PList master_file) ∧
    List.length master_file =
      List.length
        (List.filter
           (λ lang, os.isdir Scenario.site (Scenario.LOCALE_ROOT ++ [lang]))
           (os.children Scenario.site Scenario.LOCALE_ROOT)) ∧
    Forall (λ v, ∃ d, v = PDict d ∧ updated_keys ⊆ dom d ∧
                      d !! "software_version" = Some (PStr "1.0"))
           master_file.
Proof.
  apply (generate_metadata_index "1.0" Scenario.version_diff
           Scenario.LOCALE_ROOT Scenario.LANGUAGE_PACK_ROOT
           Scenario.SUBTITLES_DATA_ROOT Scenario.CROWDIN_PROJECT_ID
           Scenario.CROWDIN_PROJECT_KEY Scenario.convert_language_code_format
           Scenario.get_language_name
           (Scenario.remote (Raise ConnectionError) (Raise ConnectionError)
              (Ok (Response 200 (JsonDoc (PList [Scenario.es_status 80])))))
           (World Scenario.site [])
           (Scenario.merge "1.0" 80 Scenario.site).2).
  vm_compute. reflexivity.
Defined.

(** The pack of the scenario: the metadata and the compiled catalog, not
    the notes and not the sources. *)
Lemma zip_language_pack_contents_witness :
  let out := Scenario.zip "1.0" "es" Scenario.packed_site in
  ∃ members,
    fs out.2 !! (Scenario.LANGUAGE_PACK_ROOT ++ ["1.0"; "es.zip"])
      = Some (File (ZipArchive members)) ∧
    (∀ name n, glob.hidden name = false → Py.endswith ".json" name = true →
       fs out.2 !! (Scenario.LOCALE_ROOT ++ ["es"; name]) = Some n →
       ([name], zipfile.stored n) ∈ members) ∧
    (∀ name n, glob.hidden name = false → Py.endswith ".mo" name = true →
       fs out.2 !! (Scenario.LOCALE_ROOT ++ ["es"; "LC_MESSAGES"; name]) = Some n →
       (["LC_MESSAGES"; name], zipfile.stored n) ∈ members) ∧
    (∀ m, m ∈ members →
       ∃ name n, m.2 = zipfile.stored n ∧ glob.hidden name = false ∧
         ((m.1 = [name] ∧ Py.endswith ".json" name = true ∧
           fs out.2 !! (Scenario.LOCALE_ROOT ++ ["es"; name]) = Some n) ∨
          (m.1 = ["LC_MESSAGES"; name] ∧ Py.endswith ".mo" name = true ∧
           fs out.2 !! (Scenario.LOCALE_ROOT ++ ["es"; "LC_MESSAGES"; name])
             = Some n))).
Proof.
  apply (zip_language_pack_contents "1.0" Scenario.LOCALE_ROOT
           Scenario.LANGUAGE_PACK_ROOT Scenario.convert_language_code_format
           "es" (World Scenario.packed_site [])
           (Scenario.zip "1.0" "es" Scenario.packed_site).2);
    vm_compute; reflexivity.
Defined.

(** The old subtitle directory is still there. *)
Lemma handle_outdated_srt_schema_witness :
  Scenario.command (PStr "30")
    (Scenario.remote (Raise ConnectionError) (Raise ConnectionError)
       (Raise ConnectionError))
    (<[ ["static"; "srt"] := Dir ]> Scenario.site)
  = (inl (CommandError
            "Please run the command 'move_existing_srts' before continuing."),
     World (<[ ["static"; "srt"] := Dir ]> Scenario.site) []).
Proof.
  apply (handle_outdated_srt_schema "1.0" Scenario.version_diff
           Scenario.LOCALE_ROOT Scenario.LANGUAGE_PACK_ROOT
           Scenario.SUBTITLES_DATA_ROOT Scenario.CROWDIN_PROJECT_ID
           Scenario.CROWDIN_PROJECT_KEY Scenario.convert_language_code_format
           Scenario.get_language_name
           (Scenario.remote (Raise ConnectionError) (Raise ConnectionError)
              (Raise ConnectionError))
           Scenario.STATIC_ROOT
           Scenario.compile_all_po_files Scenario.call_command
           Scenario.date_days_ago (PStr "30")
           (World (<[ ["static"; "srt"] := Dir ]> Scenario.site) [])).
  vm_compute. reflexivity.
Defined.

(** [--days soon]. *)
Lemma handle_invalid_days_witness :
  Scenario.command (PStr "soon")
    (Scenario.remote (Raise ConnectionError) (Raise ConnectionError)
       (Raise ConnectionError))
    Scenario.site
  = (inr (Raise ValueError), World Scenario.site []).
Proof.
  apply (handle_invalid_days "1.0" Scenario.version_diff
           Scenario.LOCALE_ROOT Scenario.LANGUAGE_PACK_ROOT
           Scenario.SUBTITLES_DATA_ROOT Scenario.CROWDIN_PROJECT_ID
           Scenario.CROWDIN_PROJECT_KEY Scenario.convert_language_code_format
           Scenario.get_language_name
           (Scenario.remote (Raise ConnectionError) (Raise ConnectionError)
              (Raise ConnectionError))
           Scenario.STATIC_ROOT
           Scenario.compile_all_po_files Scenario.call_command
           Scenario.date_days_ago (PStr "soon") ValueError
           (World Scenario.site [])).
  - vm_compute. reflexivity.
  - reflexivity.
  - reflexivity.
Defined.

(** [manage.py clean_pyc] in debug mode. *)
Lemma argv_debug_skips_clean_pyc_path_witness :
  manage.argv true ["manage.py"; "clean_pyc"]
    = ["manage.py"; "clean_pyc"; "--traceback"] ∧
  manage.argv false ["manage.py"; "clean_pyc"]
    = ["manage.py"; "clean_pyc"; "--path"; ".."].
Proof.
  split; [|reflexivity].
  apply (argv_debug_skips_clean_pyc_path ["manage.py"; "clean_pyc"]).
  apply (bool_decide_unpack _). vm_compute. exact I.
Defined.

(** The whole update on a 404 page. *)
Lemma update_language_packs_stops_at_download_witness :
  ∃ w',
    update_language_packs "1.0" Scenario.version_diff Scenario.LOCALE_ROOT
      Scenario.LANGUAGE_PACK_ROOT Scenario.SUBTITLES_DATA_ROOT
      Scenario.CROWDIN_PROJECT_ID Scenario.CROWDIN_PROJECT_KEY
      Scenario.convert_language_code_format Scenario.get_language_name
      (Scenario.remote (Ok (Response 200 (Bytes "ok")))
         (Ok (Response 404 (Bytes "Not found")))
         (Ok (Response 200 (JsonDoc (PList [Scenario.es_status 80])))))
      Scenario.compile_all_po_files (World Scenario.site [])
    = (Raise BadZipfile, w') ∧
    fs w' = Scenario.site.
Proof.
  apply (update_language_packs_stops_at_download "1.0" Scenario.version_diff
           Scenario.LOCALE_ROOT Scenario.LANGUAGE_PACK_ROOT
           Scenario.SUBTITLES_DATA_ROOT Scenario.CROWDIN_PROJECT_ID
           Scenario.CROWDIN_PROJECT_KEY Scenario.convert_language_code_format
           Scenario.get_language_name
           (Scenario.remote (Ok (Response 200 (Bytes "ok")))
              (Ok (Response 404 (Bytes "Not found")))
              (Ok (Response 200 (JsonDoc (PList [Scenario.es_status 80])))))
           Scenario.compile_all_po_files
           (Response 200 (Bytes "ok")) (Response 404 (Bytes "Not found"))
           (World Scenario.site [])).
  - vm_compute. reflexivity.
  - vm_compute. reflexivity.
  - intros members. discriminate.
Defined.

(** The whole update with a compiling stage that only logs. *)
Lemma update_language_packs_writes_witness :
  writes_only
    (λ q, below Scenario.LOCALE_ROOT q ∨
          q = Scenario.LANGUAGE_PACK_ROOT ++ [LANGUAGE_PACK_AVAILABILITY_FILENAME] ∨
          (∃ lang, q = Scenario.LANGUAGE_PACK_ROOT
                         ++ ["1.0";
                             Scenario.convert_language_code_format lang false
                               +:+ ".zip"]) ∨
          False)
    (World Scenario.site [])
    (update_language_packs "1.0" Scenario.version_diff Scenario.LOCALE_ROOT
       Scenario.LANGUAGE_PACK_ROOT Scenario.SUBTITLES_DATA_ROOT
       Scenario.CROWDIN_PROJECT_ID Scenario.CROWDIN_PROJECT_KEY
       Scenario.convert_language_code_format Scenario.get_language_name
       (Scenario.remote (Ok (Response 200 (Bytes "ok")))
          (Ok (Response 200 Scenario.es_po_archive))
          (Ok (Response 200 (JsonDoc (PList [Scenario.es_status 80])))))
       Scenario.compile_all_po_files (World Scenario.site [])).2.
Proof.
  apply (update_language_packs_writes "1.0" Scenario.version_diff
           Scenario.LOCALE_ROOT Scenario.LANGUAGE_PACK_ROOT
           Scenario.SUBTITLES_DATA_ROOT Scenario.CROWDIN_PROJECT_ID
           Scenario.CROWDIN_PROJECT_KEY Scenario.convert_language_code_format
           Scenario.get_language_name
           (Scenario.remote (Ok (Response 200 (Bytes "ok")))
              (Ok (Response 200 Scenario.es_po_archive))
              (Ok (Response 200 (JsonDoc (PList [Scenario.es_status 80])))))
           Scenario.compile_all_po_files (λ _, False)
           (World Scenario.site [])).
  - intros r Hr. vm_compute in Hr. injection Hr as <-. reflexivity.
  - intros w0 q _. left. reflexivity.
Defined.

(** The archive of the scenario has plain names. *)
Lemma download_writes_below_locale_root_witness :
  writes_only (below Scenario.LOCALE_ROOT) (World Scenario.site [])
    (Scenario.fetch (Response 200 Scenario.es_po_archive) Scenario.site).2.
Proof.
  apply (download_writes_below_locale_root Scenario.LOCALE_ROOT
           Scenario.CROWDIN_PROJECT_ID Scenario.CROWDIN_PROJECT_KEY
           Scenario.convert_language_code_format
           (Scenario.remote (Ok (Response 200 (Bytes "ok")))
              (Ok (Response 200 Scenario.es_po_archive))
              (Raise ConnectionError))
           Scenario.CROWDIN_PROJECT_ID Scenario.CROWDIN_PROJECT_KEY "all"
           (World Scenario.site [])).
  intros r Hr. vm_compute in Hr. injection Hr as <-. reflexivity.
Defined.

Lemma download_writes_only_catalogs_witness :
  writes_only
    (λ q, below (Scenario.LOCALE_ROOT ++ ["tmp"]) q ∨
          ∃ lang,
            below (Scenario.LOCALE_ROOT
                     ++ [Scenario.convert_language_code_format lang false;
                         "LC_MESSAGES"; "django.po"]) q ∨
            below (Scenario.LOCALE_ROOT
                     ++ [Scenario.convert_language_code_format lang false;
                         "LC_MESSAGES"; "djangojs.po"]) q)
    (World Scenario.site [])
    (Scenario.fetch (Response 200 Scenario.es_po_archive) Scenario.site).2.
Proof.
  apply (download_writes_only_catalogs Scenario.LOCALE_ROOT
           Scenario.CROWDIN_PROJECT_ID Scenario.CROWDIN_PROJECT_KEY
           Scenario.convert_language_code_format
           (Scenario.remote (Ok (Response 200 (Bytes "ok")))
              (Ok (Response 200 Scenario.es_po_archive))
              (Raise ConnectionError))
           Scenario.CROWDIN_PROJECT_ID Scenario.CROWDIN_PROJECT_KEY "all"
           (World Scenario.site [])).
  intros r Hr. vm_compute in Hr. injection Hr as <-. reflexivity.
Defined.

(** Why the names have to be plain: a member [../../escaped] of an archive
    extracted into [locale/tmp] is written at the root of the tree. *)
Example extractall_parent_components :
  fs (zipfile.extractall [([".."; ".."; "escaped"], Some (Bytes "x"))]
        (Scenario.LOCALE_ROOT ++ ["tmp"]) (World Scenario.site [])).2
    !! ["escaped"] = Some (File (Bytes "x")).
Proof. vm_compute. reflexivity. Qed.
